(** * join-zoom: the meeting resolution logic of [zoom-alfred.py]

    A shallow embedding of the functions of [zoom-alfred.py] that decide
    which calendar event to join: [get_zoom_link], [parse_event_datetime],
    [parse_events] (with its inner [augment]) and [find_meeting_to_join],
    together with the properties the specification states about them; and
    of what presents the result: [MyEvent.to_item], [_debug_event_list] and
    [command_list], with the dataclasses of [alfred.py].

    Python exceptions are the left summand of the result of a computation;
    the lines written by [_debug] are threaded through as an output log. *)

From Stdlib Require Import ZArith Ascii String List Bool Lia.
From stdpp Require Import base option list strings gmap pretty.

Local Open Scope string_scope.
Local Open Scope list_scope.
Local Open Scope Z_scope.

(** ** Exceptions, output and the computation monad *)

(** The exceptions the modelled code can raise. *)
Inductive exn : Type :=
  | KeyError (key : string)
  | TypeError
  | IndexError
  | StopIteration.

(** [print(message)] goes to stdout, [print(message, file=sys.stderr)] to
    stderr. *)
Inductive stream : Type := Stdout | Stderr.

Definition output : Type := list (stream * string).

(** A computation reads the output written so far and either raises or
    returns, leaving the (possibly extended) output behind. *)
Definition Py (A : Type) : Type := output -> (exn + A) * output.

Definition ret {A} (x : A) : Py A := fun out => (inr x, out).

Definition raise {A} (e : exn) : Py A := fun out => (inl e, out).

Definition bind {A B} (m : Py A) (k : A -> Py B) : Py B :=
  fun out =>
    match m out with
    | (inr x, out') => k x out'
    | (inl e, out') => (inl e, out')
    end.

#[global] Instance Py_ret : MRet Py := @ret.
#[global] Instance Py_bind : MBind Py := fun A B k m => bind m k.

(** A pure step that can raise but writes nothing. *)
Definition lift {A} (r : exn + A) : Py A := fun out => (r, out).

(** What a computation started on [out] returns or raises. *)
Definition outcome {A} (m : Py A) (out : output) : exn + A := fst (m out).

(** ** Command line arguments *)

Inductive Command : Type := list_cmd | join_cmd.

Inductive OutputFormat : Type := stdout | alfred.

(** ** Python strings *)

(** [pat in s] for two strings: [pat] occurs in [s] as a substring. *)
Fixpoint contains (pat s : string) : bool :=
  String.prefix pat s ||
  match s with
  | EmptyString => false
  | String _ s' => contains pat s'
  end.

(** [s.split(sep)] for a one-character separator: the segments between the
    occurrences of [sep]; never the empty list. *)
Fixpoint split (sep : ascii) (s : string) : list string :=
  match s with
  | EmptyString => [EmptyString]
  | String a s' =>
      if Ascii.eqb a sep then EmptyString :: split sep s'
      else match split sep s' with
           | seg :: segs => String a seg :: segs
           | [] => [String a EmptyString]
           end
  end.

(** [sep] does not occur in [s]. *)
Definition free_of (sep : ascii) (s : string) : bool :=
  negb (contains (String sep EmptyString) s).

(** The number of elements of a list that pass a test. *)
Definition count {A} (p : A -> bool) (xs : list A) : nat :=
  length (List.filter p xs).

(** [next(x for x in xs if p(x))]: the first element that passes the test;
    with no default, an exhausted generator raises [StopIteration]. *)
Definition next {A} (p : A -> bool) (xs : list A) : exn + A :=
  match List.filter p xs with
  | x :: _ => inr x
  | [] => inl StopIteration
  end.

(** ** Datetimes *)

(** A [datetime]: the wall-clock fields as microseconds on the proleptic
    Gregorian time line, and the UTC offset of its [tzinfo] in microseconds.
    A datetime without [tzinfo] is naive. *)
Record datetime : Type := Datetime {
  wall : Z;
  utcoffset : option Z
}.

(** A [timedelta], in microseconds. *)
Definition timedelta : Type := Z.

Definition minutes (n : Z) : timedelta := n * 60 * 1000000.

(** The instants two datetimes are compared at: both naive, or both aware
    (then in UTC). Comparing or subtracting a naive and an aware datetime
    raises [TypeError]. *)
Definition aligned (a b : datetime) : exn + (Z * Z) :=
  match utcoffset a, utcoffset b with
  | None, None => inr (wall a, wall b)
  | Some oa, Some ob => inr (wall a - oa, wall b - ob)
  | _, _ => inl TypeError
  end.

(** The operand of a comparison with [now]; [None] is not ordered against a
    datetime. *)
Definition compare_with (op : Z -> Z -> bool) (a : option datetime) (b : datetime)
  : exn + bool :=
  match a with
  | None => inl TypeError
  | Some a => match aligned a b with
              | inr (x, y) => inr (op x y)
              | inl e => inl e
              end
  end.

(** [a <= b], [a >= b] and [a > b] with [a] an [Optional[datetime]]. *)
Definition dt_le := compare_with Z.leb.
Definition dt_ge := compare_with Z.geb.
Definition dt_gt := compare_with Z.gtb.

(** [a - b] with [a] an [Optional[datetime]]. *)
Definition dt_sub (a : option datetime) (b : datetime) : exn + timedelta :=
  match a with
  | None => inl TypeError
  | Some a => match aligned a b with
              | inr (x, y) => inr (x - y)
              | inl e => inl e
              end
  end.

Record Args : Type := mkArgs {
  command : Command;
  format : OutputFormat;
  now : datetime
}.

(** [_debug]: to stdout in the stdout format, to stderr otherwise. *)
Definition _debug (message : string) (fmt : OutputFormat) : Py unit :=
  fun out =>
    match fmt with
    | stdout => (inr tt, out ++ [(Stdout, message)])
    | alfred => (inr tt, out ++ [(Stderr, message)])
    end.

(** ** Constants ([constants.py]) *)

Definition HOURS_AHEAD : Z := 9.
Definition NUM_NEXT : Z := 5.
Definition JOINABLE_IF_NEXT_STARTS_WITHIN : Z := 3.

(** ** Calendar events *)

(** An entry point of the conference data and the [start] and [end] of an
    event are dictionaries from strings to strings. *)
Abbreviation dict := (gmap string string).

(** The event resource of the calendar API, with the keys the code reads.
    A key the dictionary lacks is [None]. *)
Record Event : Type := mkEvent {
  ev_id : option string;
  ev_summary : option string;
  ev_start : option dict;
  ev_end : option dict;
  ev_location : option string;
  (* event["conferenceData"], and inside it the key "entryPoints" *)
  ev_conferenceData : option (option (list dict))
}.

(** [event[key]]: [KeyError] on a missing key. *)
Definition item {A} (key : string) (field : option A) : Py A :=
  match field with
  | Some v => ret v
  | None => raise (KeyError key)
  end.

(** [event.get("conferenceData", {}).get("entryPoints", [])] *)
Definition entry_points (event : Event) : list dict :=
  match ev_conferenceData event with
  | Some (Some eps) => eps
  | Some None => []
  | None => []
  end.

(** The domain marker of a Zoom link. *)
Definition zoom_us : string := "zoom.us".

Definition comma : ascii := ","%char.

(** [get_zoom_link]: the Zoom link of the event data, [None] without one. *)
Definition get_zoom_link (event : Event) (args : Args) : Py (option string) :=
  let loc := default "" (ev_location event) in
  if contains zoom_us loc then
    if contains "," loc then
      loc' ← lift (next (contains zoom_us) (split comma loc));
      mret (Some loc')
    else mret (Some loc)
  else
    let eps := entry_points event in
    match eps with
    | _ :: _ =>
        found ← lift (next (fun ep : dict => contains zoom_us (default "" (ep !! "uri"))) eps);
        if bool_decide (found ≠ ∅) then
          uri ← item "uri" (found !! "uri");
          mret (Some uri)
        else
          summary ← item "summary" (ev_summary event);
          _debug ("Conference data found, but no zoom links in it for " +:+ summary)
                 (format args);;
          mret None
    | [] =>
        summary ← item "summary" (ev_summary event);
        _debug ("No conference data found for " +:+ summary) (format args);;
        mret None
    end.

(** [has_zoom_link] *)
Definition has_zoom_link (event : Event) (args : Args) : Py bool :=
  link ← get_zoom_link event args;
  mret (bool_decide (link ≠ None)).

(** ** Normalized events *)

Record MyEvent : Type := mkMyEvent {
  event_id : string;
  start : option datetime;
  summary : string;
  is_not_day_event : bool;
  (* Is the current meeting in progress *)
  in_progress : bool;
  (* Does this event start within a "joinable" time frame? *)
  is_next_joinable : bool;
  zoom_link : option string;
  icon : option string
}.

Inductive NextMeetingOptions : Type :=
  | FoundNextMeeting
  | MultipleOptions
  | NoOptions.

(** [xs[0]] *)
Definition first_item {A} (xs : list A) : Py A :=
  match xs with
  | x :: _ => ret x
  | [] => raise IndexError
  end.

Section Normalizer.

(** [datetime.fromisoformat] of the Python library: the datetime a string
    denotes, [None] where the library raises [ValueError]. *)
Variable fromisoformat : string -> option datetime.

(** [zoom.py] is outside the modelled sources; its two functions used by
    [parse_events] are parameters of the normalizer. *)
Variable is_not_day_only : Event -> exn + bool.
Variable convert_to_zoom_protocol : string -> exn + string.

(** [parse_event_datetime]: the value under "dateTime", else the one under
    "date", handed to [fromisoformat]; the bare [except] turns every
    failure, also that on a missing value, into [None]. *)
Definition parse_event_datetime (d : dict) : option datetime :=
  let datetime_or_date :=
    match d !! "dateTime" with
    | Some v => Some v
    | None => d !! "date"
    end in
  match datetime_or_date with
  | Some v => fromisoformat v
  | None => None
  end.

(** The inner function [augment] of [parse_events]. *)
Definition augment (args : Args) (event : Event) : Py MyEvent :=
  id ← item "id" (ev_id event);
  start_d ← item "start" (ev_start event);
  let start := parse_event_datetime start_d in
  end_d ← item "end" (ev_end event);
  let end_ := parse_event_datetime end_d in
  is_not_day ← lift (is_not_day_only event);
  in_progress ←
    (if is_not_day : bool then
       started ← lift (dt_le start (now args));
       if started : bool then lift (dt_ge end_ (now args)) else mret false
     else mret false);
  is_next_joinable ←
    (if is_not_day && negb in_progress then
       later ← lift (dt_gt start (now args));
       if later : bool then
         delta ← lift (dt_sub start (now args));
         mret (delta <? minutes JOINABLE_IF_NEXT_STARTS_WITHIN)
       else mret false
     else mret false);
  summary ← item "summary" (ev_summary event);
  link ← get_zoom_link event args;
  zoom_link ←
    match link with
    | Some l =>
        if String.eqb l "" then mret None
        else l' ← lift (convert_to_zoom_protocol l); mret (Some l')
    | None => mret None
    end;
  let icon :=
    if contains "1:1" summary then "one.png"
    else if contains "Standup" summary then "standup.png"
    else "icon.png" in
  mret {| event_id := id;
          start := start;
          summary := summary;
          is_not_day_event := is_not_day;
          zoom_link := zoom_link;
          in_progress := in_progress;
          is_next_joinable := is_next_joinable;
          icon := Some icon |}.

(** [list(map(augment, events))]: the events are augmented in order. A
    [StopIteration] escaping [augment] ends the iteration of [map], and
    [list] returns what was collected up to there; any other exception
    propagates. *)
Fixpoint parse_events (events : list Event) (args : Args) : Py (list MyEvent) :=
  match events with
  | [] => mret []
  | event :: events' =>
      fun out =>
        match augment args event out with
        | (inr e, out') =>
            match parse_events events' args out' with
            | (inr es, out'') => (inr (e :: es), out'')
            | (inl x, out'') => (inl x, out'')
            end
        | (inl StopIteration, out') => (inr [], out')
        | (inl x, out') => (inl x, out')
        end
  end.

End Normalizer.

(** ** The resolver *)

(** [find_meeting_to_join]: the meeting to join when it is obvious. *)
Definition find_meeting_to_join (events : list MyEvent) (args : Args)
  : Py (NextMeetingOptions * option MyEvent) :=
  _debug ("Looking for next meeting. Have " +:+ pretty (length events) +:+ " candidates")
         (format args);;
  match events with
  | _ :: _ =>
      let in_progress := List.filter in_progress events in
      let next := List.filter is_next_joinable events in
      if Nat.eqb (length next) 1 then
        e ← first_item next; mret (FoundNextMeeting, Some e)
      else if Nat.eqb (length in_progress) 1 then
        e ← first_item in_progress; mret (FoundNextMeeting, Some e)
      else
        (* Too much ambiguity, display the list downstream for the user to pick. *)
        mret (MultipleOptions, None)
  | [] => mret (NoOptions, None)
  end.

(** ** Instances of the normalizer's parameters

    The properties of the normalizer are proved for every instance of its
    parameters. The instances below are the ones the concrete runs use. *)

Module Model.

Definition digit (c : ascii) : option Z :=
  let n := Z.of_nat (nat_of_ascii c) in
  if (48 <=? n) && (n <=? 57) then Some (n - 48) else None.

(** The number a run of decimal digits denotes. *)
Fixpoint number_from (acc : Z) (cs : list ascii) : option Z :=
  match cs with
  | [] => Some acc
  | c :: cs' =>
      match digit c with
      | Some d => number_from (10 * acc + d) cs'
      | None => None
      end
  end.

Definition number (cs : list ascii) : option Z := number_from 0 cs.

Definition is_leap (y : Z) : bool :=
  ((y mod 4 =? 0) && negb (y mod 100 =? 0)) || (y mod 400 =? 0).

Definition days_in_month (y m : Z) : Z :=
  if m =? 2 then (if is_leap y then 29 else 28)
  else if (m =? 4) || (m =? 6) || (m =? 9) || (m =? 11) then 30
  else 31.

(** Days from 1970-01-01 to the given civil date. *)
Definition days_from_civil (y m d : Z) : Z :=
  let y' := if m <=? 2 then y - 1 else y in
  let era := y' / 400 in
  let yoe := y' - era * 400 in
  let doy := (153 * (if 2 <? m then m - 3 else m + 9) + 2) / 5 + d - 1 in
  let doe := yoe * 365 + yoe / 4 - yoe / 100 + doy in
  era * 146097 + doe - 719468.

Definition microseconds (days h mi s : Z) : Z :=
  (((days * 24 + h) * 60 + mi) * 60 + s) * 1000000.

Definition date_of (y m d : list ascii) : option Z :=
  y ← number y; m ← number m; d ← number d;
  if (1 <=? y) && (1 <=? m) && (m <=? 12) && (1 <=? d) && (d <=? days_in_month y m)
  then Some (days_from_civil y m d) else None.

Definition time_of (h mi s : list ascii) : option Z :=
  h ← number h; mi ← number mi; s ← number s;
  if (h <? 24) && (mi <? 60) && (s <? 60)
  then Some (microseconds 0 h mi s) else None.

Definition offset_of (sign : ascii) (h mi : list ascii) : option Z :=
  h ← number h; mi ← number mi;
  if (h <? 24) && (mi <? 60) then
    if Ascii.eqb sign "+" then Some (microseconds 0 h mi 0)
    else if Ascii.eqb sign "-" then Some (- microseconds 0 h mi 0)
    else None
  else None.

(** A model of [datetime.fromisoformat] on the forms
    [YYYY-MM-DD], [YYYY-MM-DD*HH:MM:SS] and [YYYY-MM-DD*HH:MM:SS+HH:MM]
    (or [-HH:MM]), where [*] is any one character. A date alone is a naive
    datetime at midnight; an offset makes the datetime aware. Every other
    string is rejected. *)
Definition fromisoformat (s : string) : option datetime :=
  match list_ascii_of_string s with
  | y1 :: y2 :: y3 :: y4 :: "-"%char :: m1 :: m2 :: "-"%char :: d1 :: d2 :: rest =>
      days ← date_of [y1; y2; y3; y4] [m1; m2] [d1; d2];
      match rest with
      | [] => Some (Datetime (microseconds days 0 0 0) None)
      | _ :: h1 :: h2 :: ":"%char :: mi1 :: mi2 :: ":"%char :: s1 :: s2 :: tz =>
          t ← time_of [h1; h2] [mi1; mi2] [s1; s2];
          match tz with
          | [] => Some (Datetime (microseconds days 0 0 0 + t) None)
          | sign :: o1 :: o2 :: ":"%char :: o3 :: o4 :: [] =>
              off ← offset_of sign [o1; o2] [o3; o4];
              Some (Datetime (microseconds days 0 0 0 + t) (Some off))
          | _ => None
          end
      | _ => None
      end
  | _ => None
  end.

(** Modelled from the spec: [is_not_day_only] of [zoom.py], which is not
    among the sources. An event is timed iff its raw start marker is a
    precise instant, not a whole-day date: the start has a "dateTime". *)
Definition is_not_day_only (event : Event) : exn + bool :=
  match ev_start event with
  | Some d => inr (bool_decide (is_Some (d !! "dateTime")))
  | None => inr false
  end.

(** Modelled from the spec: [convert_to_zoom_protocol] of [zoom.py], which
    is not among the sources. The spec asks for a pure rule from the
    matched link to a link the client can launch and names a substitution
    of the scheme as the example; this instance replaces a leading
    [https://] by [zoommtg://] and keeps every other link. *)
Definition convert_to_zoom_protocol (link : string) : exn + string :=
  if String.prefix "https://" link
  then inr ("zoommtg://" +:+ String.substring 8 (String.length link - 8) link)
  else inr link.

Definition augment := augment fromisoformat is_not_day_only convert_to_zoom_protocol.
Definition parse_events := parse_events fromisoformat is_not_day_only convert_to_zoom_protocol.

End Model.

(** ** Concrete events *)

(** The datetime an ISO string with an offset denotes. *)
Definition moment (s : string) : datetime :=
  default (Datetime 0 (Some 0)) (Model.fromisoformat s).

Definition args_at (t : string) : Args :=
  {| command := list_cmd; format := alfred; now := moment t |}.

Definition timed (id title s e : string) (loc : option string) : Event :=
  {| ev_id := Some id; ev_summary := Some title;
     ev_start := Some {[ "dateTime" := s ]};
     ev_end := Some {[ "dateTime" := e ]};
     ev_location := loc;
     ev_conferenceData := None |}.

(** The events a run of the normalizer returns on an empty output; the empty
    list when the run raises. *)
Definition normalized (events : list Event) (args : Args) : list MyEvent :=
  match Model.parse_events events args [] with
  | (inr ms, _) => ms
  | (inl _, _) => []
  end.

(** Two minutes before ten: one meeting is running until ten, two start at
    ten. *)
Definition at_0958 : Args := args_at "2024-01-01T09:58:00+00:00".

Definition weekly : Event :=
  timed "a" "Weekly" "2024-01-01T09:00:00+00:00" "2024-01-01T10:00:00+00:00"
        (Some "https://zoom.us/j/100").

Definition standup : Event :=
  timed "b" "Standup" "2024-01-01T10:00:00+00:00" "2024-01-01T10:30:00+00:00"
        (Some "https://zoom.us/j/200").

Definition one_on_one : Event :=
  timed "c" "1:1 with Sam" "2024-01-01T10:00:00+00:00" "2024-01-01T10:30:00+00:00"
        (Some "https://zoom.us/j/300").

Definition planning : Event :=
  timed "d" "Planning" "2024-01-01T09:30:00+00:00" "2024-01-01T11:00:00+00:00"
        (Some "https://zoom.us/j/400").


(** Half past nine: the weekly meeting is running, the next ones are half
    an hour away. *)
Definition at_0930 : Args := args_at "2024-01-01T09:30:00+00:00".

(** A normalized timed meeting with a link. *)
Definition meeting (id title start link icon : string) (running joinable : bool)
  : MyEvent :=
  {| event_id := id; start := Model.fromisoformat start; summary := title;
     is_not_day_event := true; in_progress := running;
     is_next_joinable := joinable; zoom_link := Some link; icon := Some icon |}.

(** [weekly], [standup], [one_on_one] and [planning] as normalized at 09:58. *)
Definition m_weekly : MyEvent :=
  meeting "a" "Weekly" "2024-01-01T09:00:00+00:00" "zoommtg://zoom.us/j/100"
          "icon.png" true false.

Definition m_standup : MyEvent :=
  meeting "b" "Standup" "2024-01-01T10:00:00+00:00" "zoommtg://zoom.us/j/200"
          "standup.png" false true.

Definition m_one_on_one : MyEvent :=
  meeting "c" "1:1 with Sam" "2024-01-01T10:00:00+00:00" "zoommtg://zoom.us/j/300"
          "one.png" false true.

Definition m_planning : MyEvent :=
  meeting "d" "Planning" "2024-01-01T09:30:00+00:00" "zoommtg://zoom.us/j/400"
          "icon.png" true false.

(** [standup] as normalized at 09:30: not yet joinable. *)
Definition m_standup_early : MyEvent :=
  meeting "b" "Standup" "2024-01-01T10:00:00+00:00" "zoommtg://zoom.us/j/200"
          "standup.png" false false.

(** An event at an address, with the link after the comma. *)
Definition main_st : Event :=
  timed "e" "Onsite" "2024-01-01T10:00:00+00:00" "2024-01-01T11:00:00+00:00"
        (Some "123 Main St, https://zoom.us/j/111").

(** An entry point of another provider. *)
Definition meet_entry : dict :=
  {[ "entryPointType" := "video"; "uri" := "https://meet.google.com/abc-defg-hij" ]}.

(** An event whose conference data has that entry point only. *)
Definition design_review : Event :=
  {| ev_id := Some "f"; ev_summary := Some "Design review";
     ev_start := Some {[ "dateTime" := "2024-01-01T10:00:00+00:00" ]};
     ev_end := Some {[ "dateTime" := "2024-01-01T11:00:00+00:00" ]};
     ev_location := None;
     ev_conferenceData := Some (Some [meet_entry]) |}.

(** A timed event whose start is not a date. *)
Definition garbled : Event :=
  timed "g" "Sync" "not-a-date" "2024-01-01T10:30:00+00:00"
        (Some "https://zoom.us/j/500").

(** A timed event that has started and whose end is not a date. *)
Definition open_ended : Event :=
  timed "h" "Sync" "2024-01-01T09:00:00+00:00" "not-a-date"
        (Some "https://zoom.us/j/600").

(** ** Presentation ([alfred.py] and [command_list]) *)

(** The stream [_debug] writes to in a format. *)
Definition stream_of (fmt : OutputFormat) : stream :=
  match fmt with
  | stdout => Stdout
  | alfred => Stderr
  end.

(** [print(message)] *)
Definition print (message : string) : Py unit :=
  fun out => (inr tt, out ++ [(Stdout, message)]).

(** The truth value of an [Optional[str]]: [None] and the empty string are
    false. *)
Definition truthy (o : option string) : bool :=
  match o with
  | Some s => negb (String.eqb s "")
  | None => false
  end.

(** [str(b)] of a [bool]. *)
Definition str_bool (b : bool) : string := if b then "True" else "False".

(** The [value] of a member of [NextMeetingOptions]. *)
Definition value (o : NextMeetingOptions) : string :=
  match o with
  | FoundNextMeeting => "FoundNextMeeting"
  | MultipleOptions => "MultipleOptions"
  | NoOptions => "NoOptions"
  end.

(** The values kept in the [variables] dictionaries. *)
Inductive pyval : Type :=
  | VNone
  | VBool (b : bool)
  | VStr (s : string)
  | VDatetime (d : datetime).

Definition of_str (o : option string) : pyval :=
  match o with
  | Some s => VStr s
  | None => VNone
  end.

Definition of_datetime (o : option datetime) : pyval :=
  match o with
  | Some d => VDatetime d
  | None => VNone
  end.

Record ItemIcon : Type := mkItemIcon {
  path : string
}.

Record Item : Type := mkItem {
  uid : string;
  title : string;
  subtitle : string;
  arg : option string;
  variables : list (string * pyval);
  item_icon : option ItemIcon
}.

(** Script Filter Output format *)
Record ScriptFilterOutput : Type := mkScriptFilterOutput {
  items : list Item
}.

Record AlfredWorkflow : Type := mkAlfredWorkflow {
  workflow_arg : string;
  config : list (string * string);
  workflow_variables : list (string * pyval)
}.

(** Alfred workflow output - JSON Utility *)
Record JsonUtilityFormat : Type := mkJsonUtilityFormat {
  alfredworkflow : AlfredWorkflow
}.

Definition newline : string := String (ascii_of_nat 10) EmptyString.

Section Presenter.

Variable fromisoformat : string -> option datetime.
Variable is_not_day_only : Event -> exn + bool.
Variable convert_to_zoom_protocol : string -> exn + string.

(** [fetch_events] asks the calendar service for the coming events; the
    service is outside the model, and so the function is a parameter. *)
Variable fetch_events : Args -> Py (list Event).

(** [str(d)] of a datetime and [textwrap.dedent] of the Python library. *)
Variable str_datetime : datetime -> string.
Variable dedent : string -> string.

(** [json.dumps(self, indent=2, cls=EnhancedJSONEncoder)] at the two
    dataclasses that have a [to_json]. *)
Variable dumps_ScriptFilterOutput : ScriptFilterOutput -> string.
Variable dumps_JsonUtilityFormat : JsonUtilityFormat -> string.

(** How an [Optional] field shows in an f-string. *)
Definition shown_start (o : option datetime) : string :=
  match o with
  | Some d => str_datetime d
  | None => "None"
  end.

Definition shown_link (o : option string) : string :=
  match o with
  | Some s => s
  | None => "None"
  end.

(** [MyEvent.to_item] *)
Definition to_item (self : MyEvent) : Item :=
  {| uid := event_id self;
     title := summary self;
     subtitle := "Starting at " +:+ shown_start (start self);
     arg := zoom_link self;
     variables := [("title", VStr (summary self)); ("start", of_datetime (start self))];
     item_icon := if truthy (icon self)
                  then Some {| path := default "" (icon self) |}
                  else None |}.

(** The text [_debug_event_list] builds for an event, before [dedent]. *)
Definition event_string (event : MyEvent) : string :=
  "        Event: " +:+ event_id event +:+ newline +:+
  "          Summary: " +:+ summary event +:+ newline +:+
  "          Start  : " +:+ shown_start (start event) +:+ newline +:+
  "          Markers: " +:+ str_bool (is_not_day_event event) +:+ " | " +:+
     str_bool (in_progress event) +:+ " | " +:+
     str_bool (is_next_joinable event) +:+ newline +:+
  "          Link   : " +:+ shown_link (zoom_link event).

(** [_debug_event_list]: debug each event in a well formatted manner. *)
Fixpoint _debug_event_list (events : list MyEvent) (fmt : OutputFormat) : Py unit :=
  match events with
  | [] => mret tt
  | event :: events' =>
      _debug (dedent (event_string event)) fmt;;
      _debug_event_list events' fmt
  end.

(** [ScriptFilterOutput.to_json] and [JsonUtilityFormat.to_json] *)
Definition ScriptFilterOutput_to_json (self : ScriptFilterOutput) : string :=
  dumps_ScriptFilterOutput self.

Definition JsonUtilityFormat_to_json (self : JsonUtilityFormat) : string :=
  dumps_JsonUtilityFormat self.

(** The events [command_list] keeps for Alfred: timed, with a link. *)
Definition listed (e : MyEvent) : bool :=
  is_not_day_event e && truthy (zoom_link e).

(** [command_list]: implement the list command. *)
Definition command_list (args : Args) : Py unit :=
  events ← fetch_events args;
  events ← parse_events fromisoformat is_not_day_only convert_to_zoom_protocol
             events args;
  _debug_event_list events (format args);;
  let filtered_events := List.filter listed events in
  match format args with
  | alfred =>
      let items := List.map to_item filtered_events in
      let output := {| items := items |} in
      r ← find_meeting_to_join filtered_events args;
      let next_meeting_value := fst r in
      let to_join := snd r in
      let vars := [("need_to_prompt", VBool true);
                   ("next_meeting", VStr (value next_meeting_value))] in
      let vars :=
        match to_join with
        | Some to_join =>
            vars ++ [("zoom_link", of_str (zoom_link to_join));
                     ("title", VStr (summary to_join));
                     ("start", of_datetime (start to_join))]
        | None => vars
        end in
      let utility_output :=
        {| alfredworkflow :=
             {| workflow_arg := ScriptFilterOutput_to_json output;
                config := [];
                workflow_variables := vars |} |} in
      print (JsonUtilityFormat_to_json utility_output)
  | stdout => print "TODO: Figure out the non-alfred output format..."
  end.

End Presenter.

(** ** An instance of the presenter's parameters

    Datetimes are shown by their microseconds, [dedent] keeps the text,
    the serializers give the identifiers of the items and the argument of the
    workflow, and the calendar answers with a fixed list of events. *)

Module Plain.

Definition str_datetime (d : datetime) : string := pretty (wall d).

Definition dedent (s : string) : string := s.

Definition dumps_ScriptFilterOutput (o : ScriptFilterOutput) : string :=
  String.concat "," (List.map uid (items o)).

Definition dumps_JsonUtilityFormat (o : JsonUtilityFormat) : string :=
  workflow_arg (alfredworkflow o).

Definition fetch_events (events : list Event) (args : Args) : Py (list Event) :=
  mret events.

Definition command_list (events : list Event) : Args -> Py unit :=
  command_list Model.fromisoformat Model.is_not_day_only Model.convert_to_zoom_protocol
    (fetch_events events) str_datetime dedent
    dumps_ScriptFilterOutput dumps_JsonUtilityFormat.

End Plain.

(** An untitled event without a link. *)
Definition untitled : Event :=
  {| ev_id := Some "u"; ev_summary := None;
     ev_start := Some {[ "date" := "2024-01-01" ]};
     ev_end := Some {[ "date" := "2024-01-02" ]};
     ev_location := None;
     ev_conferenceData := None |}.

(** A day event with a title and no link. *)
Definition holiday : Event :=
  {| ev_id := Some "v"; ev_summary := Some "Holiday";
     ev_start := Some {[ "date" := "2024-01-01" ]};
     ev_end := Some {[ "date" := "2024-01-02" ]};
     ev_location := None;
     ev_conferenceData := Some (Some []) |}.

(** An entry point with a Zoom link, and an event that has it after the
    entry point of another provider. *)
Definition zoom_entry : dict :=
  {[ "entryPointType" := "video"; "uri" := "https://acme.zoom.us/j/700" ]}.

Definition hybrid : Event :=
  {| ev_id := Some "w"; ev_summary := Some "Hybrid";
     ev_start := Some {[ "dateTime" := "2024-01-01T10:00:00+00:00" ]};
     ev_end := Some {[ "dateTime" := "2024-01-01T11:00:00+00:00" ]};
     ev_location := Some "Room 4";
     ev_conferenceData := Some (Some [meet_entry; zoom_entry]) |}.

(** The reference time given without an offset: a naive datetime. *)
Definition naive_0958 : Args :=
  {| command := list_cmd; format := alfred;
     now := default (Datetime 0 None) (Model.fromisoformat "2024-01-01T09:58:00") |}.

(** The stdout format at 09:58. *)
Definition plain_0958 : Args :=
  {| command := list_cmd; format := stdout; now := moment "2024-01-01T09:58:00+00:00" |}.

(** An event without "end". *)
Definition endless : Event :=
  {| ev_id := Some "x"; ev_summary := Some "Reminder";
     ev_start := Some {[ "dateTime" := "2024-01-01T10:00:00+00:00" ]};
     ev_end := None;
     ev_location := None;
     ev_conferenceData := None |}.

(** [hybrid] as normalized at 09:58. *)
Definition m_hybrid : MyEvent :=
  meeting "w" "Hybrid" "2024-01-01T10:00:00+00:00" "zoommtg://acme.zoom.us/j/700"
          "icon.png" false true.

(** [holiday] as normalized: a day event without a link. *)
Definition m_holiday : MyEvent :=
  {| event_id := "v"; start := Model.fromisoformat "2024-01-01"; summary := "Holiday";
     is_not_day_event := false; in_progress := false; is_next_joinable := false;
     zoom_link := None; icon := Some "icon.png" |}.

(** ** Vocabulary of the properties *)

(** The line [find_meeting_to_join] writes first. *)
Definition looking_line (events : list MyEvent) (args : Args) : stream * string :=
  (stream_of (format args),
   "Looking for next meeting. Have " +:+ pretty (length events) +:+ " candidates").

(** The line [get_zoom_link] writes for an event without conference data. *)
Definition no_data_line (title : string) (args : Args) : stream * string :=
  (stream_of (format args), "No conference data found for " +:+ title).

(** A computation only appends to the output, and only lines of one
    stream. *)
Definition appends_on (s : stream) {A} (m : Py A) : Prop :=
  forall out, exists extra,
    snd (m out) = out ++ extra /\ Forall (fun line => fst line = s) extra.

(** The two flags of a normalized event exclude each other, and a day event
    has neither. *)
Definition flags_consistent (m : MyEvent) : Prop :=
  ~ (in_progress m = true /\ is_next_joinable m = true) /\
  (is_not_day_event m = false -> in_progress m = false /\ is_next_joinable m = false).

(** * Properties *)

(** ** Running a computation *)

Ltac run :=
  unfold outcome, item, first_item, mbind, mret, Py_bind, Py_ret, bind, ret,
    raise, lift, _debug in *.

Lemma filter_all_false {A} (p : A -> bool) (xs : list A) :
  (forall x, In x xs -> p x = false) -> List.filter p xs = [].
Proof.
  induction xs as [|x xs IH]; simpl; intros H; [reflexivity|].
  rewrite (H x (or_introl eq_refl)). apply IH. intros y Hy. apply H. now right.
Qed.

(** The one element passing the test is all that the filter keeps. *)
Lemma filter_only {A} (p : A -> bool) (pre post : list A) (m : A) :
  p m = true ->
  (forall x, In x (pre ++ post) -> p x = false) ->
  List.filter p (pre ++ m :: post) = [m].
Proof.
  intros Hm Hothers. rewrite List.filter_app. simpl. rewrite Hm.
  rewrite !filter_all_false; [reflexivity| |];
    intros x Hx; apply Hothers, in_or_app; auto.
Qed.

(** ** The resolver *)

(** What [find_meeting_to_join] returns, without the monad: it never raises,
    and its answer does not depend on the output written so far. *)
Lemma find_meeting_to_join_outcome (events : list MyEvent) (args : Args) (out : output) :
  outcome (find_meeting_to_join events args) out =
  inr match events with
      | [] => (NoOptions, None)
      | _ :: _ =>
          match List.filter is_next_joinable events, List.filter in_progress events with
          | [e], _ => (FoundNextMeeting, Some e)
          | _, [e] => (FoundNextMeeting, Some e)
          | _, _ => (MultipleOptions, None)
          end
      end.
Proof.
  unfold find_meeting_to_join. run.
  destruct events as [|e0 events]; [destruct (format args); reflexivity|].
  cbv beta iota zeta.
  generalize (List.filter in_progress (e0 :: events)) as running.
  generalize (List.filter is_next_joinable (e0 :: events)) as upcoming.
  intros [|a [|b l]] [|c [|d l']]; destruct (format args); reflexivity.
Qed.

(** C7: on the empty list of meetings, whatever the reference time,
    [find_meeting_to_join] returns [NoOptions] and selects no meeting. *)
Theorem find_meeting_to_join_empty (args : Args) (out : output) :
  outcome (find_meeting_to_join [] args) out = inr (NoOptions, None).
Proof. now rewrite find_meeting_to_join_outcome. Qed.

(** C4: when exactly one meeting of the list, [m], is joinable next (every
    meeting before and after it is not), [find_meeting_to_join] returns
    [FoundNextMeeting] with [m], however many meetings are in progress. *)
Theorem find_meeting_to_join_one_next
    (pre post : list MyEvent) (m : MyEvent) (args : Args) (out : output) :
  is_next_joinable m = true ->
  (forall e, In e (pre ++ post) -> is_next_joinable e = false) ->
  outcome (find_meeting_to_join (pre ++ m :: post) args) out
  = inr (FoundNextMeeting, Some m).
Proof.
  intros Hm Hothers. rewrite find_meeting_to_join_outcome.
  rewrite (filter_only is_next_joinable pre post m Hm Hothers).
  destruct pre; reflexivity.
Qed.

(** C5: when no meeting of the list is joinable next and exactly one, [m],
    is in progress, [find_meeting_to_join] returns [FoundNextMeeting] with
    [m]. *)
Theorem find_meeting_to_join_one_in_progress
    (pre post : list MyEvent) (m : MyEvent) (args : Args) (out : output) :
  (forall e, In e (pre ++ m :: post) -> is_next_joinable e = false) ->
  in_progress m = true ->
  (forall e, In e (pre ++ post) -> in_progress e = false) ->
  outcome (find_meeting_to_join (pre ++ m :: post) args) out
  = inr (FoundNextMeeting, Some m).
Proof.
  intros Hnone Hm Hothers. rewrite find_meeting_to_join_outcome.
  rewrite (filter_all_false is_next_joinable _ Hnone).
  rewrite (filter_only in_progress pre post m Hm Hothers).
  destruct pre; reflexivity.
Qed.

(** C9: a meeting [find_meeting_to_join] returns with [FoundNextMeeting] is
    one of the meetings it was given, and is joinable next or in progress. *)
Theorem find_meeting_to_join_selects_candidate
    (events : list MyEvent) (args : Args) (out : output) (m : MyEvent) :
  outcome (find_meeting_to_join events args) out = inr (FoundNextMeeting, Some m) ->
  In m events /\ (is_next_joinable m = true \/ in_progress m = true).
Proof.
  rewrite find_meeting_to_join_outcome. intros H.
  destruct events as [|e0 events]; [discriminate|].
  destruct (List.filter is_next_joinable (e0 :: events)) as [|a [|b l]] eqn:Hnext.
  - destruct (List.filter in_progress (e0 :: events)) as [|c [|d l']] eqn:Hrun;
      try discriminate.
    injection H as <-.
    assert (Hin : In c (List.filter in_progress (e0 :: events)))
      by (rewrite Hrun; now left).
    apply List.filter_In in Hin. tauto.
  - injection H as <-.
    assert (Hin : In a (List.filter is_next_joinable (e0 :: events)))
      by (rewrite Hnext; now left).
    apply List.filter_In in Hin. tauto.
  - destruct (List.filter in_progress (e0 :: events)) as [|c [|d l']] eqn:Hrun;
      try discriminate.
    injection H as <-.
    assert (Hin : In c (List.filter in_progress (e0 :: events)))
      by (rewrite Hrun; now left).
    apply List.filter_In in Hin. tauto.
Qed.

(** ** Strings: substrings and segments *)

Example split_trailing : split comma "a,b," = ["a"; "b"; ""].
Proof. reflexivity. Qed.

Example split_empty : split comma "" = [""].
Proof. reflexivity. Qed.

Example split_main_st :
  split comma "123 Main St, https://zoom.us/j/111"
  = ["123 Main St"; " https://zoom.us/j/111"].
Proof. reflexivity. Qed.

Example contains_inside : contains zoom_us "https://acme.zoom.us/j/1" = true.
Proof. reflexivity. Qed.

Example contains_absent : contains zoom_us "https://meet.google.com/abc" = false.
Proof. reflexivity. Qed.

Lemma prefix_cons (a b : ascii) (p s : string) :
  String.prefix (String a p) (String b s) = true <-> a = b /\ String.prefix p s = true.
Proof.
  simpl. destruct (ascii_dec a b) as [->|Hne]; split; try tauto.
  discriminate.
Qed.

Lemma contains_cons (pat : string) (a : ascii) (s : string) :
  contains pat s = true -> contains pat (String a s) = true.
Proof.
  intros H. change (String.prefix pat (String a s) || contains pat s = true).
  rewrite H. apply orb_true_r.
Qed.

Lemma prefix_contains (pat s : string) :
  String.prefix pat s = true -> contains pat s = true.
Proof. intros H. destruct s; simpl in *; rewrite H; reflexivity. Qed.

Lemma free_of_cons (sep a : ascii) (s : string) :
  free_of sep (String a s) = true -> a <> sep /\ free_of sep s = true.
Proof.
  unfold free_of. simpl. destruct (ascii_dec sep a) as [->|Hne].
  - destruct s; discriminate.
  - intros H. split; [congruence|]. exact H.
Qed.

Lemma split_nonempty (sep : ascii) (s : string) : split sep s <> [].
Proof.
  destruct s as [|a s]; simpl; [discriminate|].
  destruct (Ascii.eqb a sep); [discriminate|].
  destruct (split sep s); discriminate.
Qed.

(** The first segment of a string extends every separator-free prefix of
    the string. *)
Lemma prefix_first_segment (sep : ascii) (pat : string) :
  free_of sep pat = true ->
  forall s, String.prefix pat s = true ->
  exists seg segs, split sep s = seg :: segs /\ String.prefix pat seg = true.
Proof.
  induction pat as [|a pat IH]; intros Hfree s Hpre.
  - destruct (split sep s) as [|seg segs] eqn:E; [now apply split_nonempty in E|].
    exists seg, segs. split; [reflexivity|]. destruct seg; reflexivity.
  - destruct s as [|b s]; [discriminate|].
    apply prefix_cons in Hpre as [<- Hpre].
    apply free_of_cons in Hfree as [Hne Hfree].
    destruct (IH Hfree s Hpre) as (seg & segs & E & Hseg).
    exists (String a seg), segs. simpl. rewrite E.
    destruct (Ascii.eqb_spec a sep) as [->|_]; [contradiction|].
    split; [reflexivity|]. apply prefix_cons. auto.
Qed.

(** A separator-free substring of a string lies within one of its
    segments. *)
Lemma contains_segment (sep : ascii) (pat : string) :
  free_of sep pat = true ->
  forall s, contains pat s = true ->
  exists seg, In seg (split sep s) /\ contains pat seg = true.
Proof.
  intros Hfree. induction s as [|a s IH]; intros Hin.
  - exists EmptyString. split; [now left | exact Hin].
  - change (String.prefix pat (String a s) || contains pat s = true) in Hin.
    apply orb_true_iff in Hin as [Hpre|Hin].
    + destruct (prefix_first_segment sep pat Hfree _ Hpre) as (seg & segs & E & Hseg).
      exists seg. rewrite E. split; [now left | now apply prefix_contains].
    + destruct (IH Hin) as (seg & Hseg & Hc). simpl.
      destruct (Ascii.eqb a sep); [exists seg; split; [now right | exact Hc]|].
      destruct (split sep s) as [|seg0 segs]; [contradiction|].
      destruct Hseg as [<-|Hseg].
      * exists (String a seg0). split; [now left | now apply contains_cons].
      * exists seg. split; [now right | exact Hc].
Qed.

(** [next] returns the first element passing the test when there is one. *)
Lemma next_first {A} (p : A -> bool) (xs : list A) (x : A) :
  In x xs -> p x = true ->
  exists pre y post,
    xs = pre ++ y :: post /\ (forall z, In z pre -> p z = false) /\ p y = true /\
    next p xs = inr y.
Proof.
  unfold next. induction xs as [|h xs IH]; intros Hin Hp; [contradiction|].
  destruct (p h) eqn:Hh.
  - exists [], h, xs. simpl. rewrite Hh. repeat split; auto. intros z [].
  - destruct Hin as [->|Hin]; [congruence|].
    destruct (IH Hin Hp) as (pre & y & post & -> & Hpre & Hy & Hnext).
    exists (h :: pre), y, post. simpl. rewrite Hh. repeat split; auto.
    intros z [<-|Hz]; auto.
Qed.

Lemma next_none {A} (p : A -> bool) (xs : list A) :
  (forall x, In x xs -> p x = false) -> next p xs = inl StopIteration.
Proof. intros H. unfold next. now rewrite filter_all_false. Qed.

(** ** The link extractor *)

(** C10: for a location that contains "zoom.us" there is one link that
    [get_zoom_link] returns for every event with that location, whatever its
    conference data, without raising and without a line of output. The link
    contains "zoom.us"; it is the location itself when the location has no
    comma, and otherwise the first of its comma-separated segments that
    contains "zoom.us", which always exists. *)
Theorem get_zoom_link_from_location (loc : string) :
  contains zoom_us loc = true ->
  exists link,
    (forall event args out,
        ev_location event = Some loc ->
        get_zoom_link event args out = (inr (Some link), out)) /\
    contains zoom_us link = true /\
    (if contains "," loc
     then exists pre post,
         split comma loc = pre ++ link :: post /\
         forall seg, In seg pre -> contains zoom_us seg = false
     else link = loc).
Proof.
  intros Hloc. destruct (contains "," loc) eqn:Hcomma.
  - destruct (contains_segment comma zoom_us eq_refl loc Hloc) as (seg & Hseg & Hc).
    destruct (next_first (contains zoom_us) _ seg Hseg Hc)
      as (pre & link & post & E & Hpre & Hlink & Hnext).
    exists link. split; [|split; [exact Hlink | exists pre, post; auto]].
    intros event args out Hev. unfold get_zoom_link. rewrite Hev. simpl.
    rewrite Hloc, Hcomma. run. rewrite Hnext. reflexivity.
  - exists loc. split; [|split; [exact Hloc | reflexivity]].
    intros event args out Hev. unfold get_zoom_link. rewrite Hev. simpl.
    rewrite Hloc, Hcomma. reflexivity.
Qed.

(** C3: for every event whose location is
    "123 Main St, https://zoom.us/j/111", [get_zoom_link] returns the segment
    after the comma as it stands, " https://zoom.us/j/111" with its leading
    blank, and writes nothing. *)
Theorem get_zoom_link_main_st (event : Event) (args : Args) (out : output) :
  ev_location event = Some "123 Main St, https://zoom.us/j/111" ->
  get_zoom_link event args out = (inr (Some " https://zoom.us/j/111"), out).
Proof. intros H. unfold get_zoom_link. rewrite H. reflexivity. Qed.

(** C2: an event without "zoom.us" in its location whose list of entry
    points is not empty and has no entry with "zoom.us" in its URI makes
    [get_zoom_link] raise [StopIteration]: the generator handed to [next] is
    exhausted, and the branch that reports the missing link is not
    reached. *)
Theorem get_zoom_link_no_matching_entry
    (event : Event) (args : Args) (out : output) (ep : dict) (eps : list dict) :
  contains zoom_us (default "" (ev_location event)) = false ->
  entry_points event = ep :: eps ->
  (forall e : dict, In e (ep :: eps) -> contains zoom_us (default "" (e !! "uri")) = false) ->
  get_zoom_link event args out = (inl StopIteration, out).
Proof.
  intros Hloc Heps Hnone. unfold get_zoom_link. rewrite Hloc, Heps. run.
  rewrite (next_none _ _ Hnone). reflexivity.
Qed.

(** ** The normalizer *)

(** A sequence of two steps returns only if both do. *)
Lemma bind_returns {A B} (m : Py A) (k : A -> Py B) (out out' : output) (b : B) :
  (m ≫= k) out = (inr b, out') ->
  exists a out1, m out = (inr a, out1) /\ k a out1 = (inr b, out').
Proof.
  unfold mbind, Py_bind, bind. destruct (m out) as [[e|a] out1]; [discriminate|].
  intros H. exists a, out1. auto.
Qed.

Lemma mret_returns {A} (x y : A) (out out' : output) :
  mret (M := Py) x out = (inr y, out') -> x = y /\ out = out'.
Proof. unfold mret, Py_ret, ret. intros H. injection H; auto. Qed.

Section NormalizerProperties.

Variable fromisoformat : string -> option datetime.
Variable is_not_day_only : Event -> exn + bool.
Variable convert_to_zoom_protocol : string -> exn + string.

(** What the flags of a returned event rest on: the answer of
    [is_not_day_only] is recorded as it is, a day event is not in
    progress, and only a timed event that is not in progress can be
    joinable next. *)
Lemma augment_returned
    (args : Args) (event : Event) (out out' : output) (m : MyEvent) :
  augment fromisoformat is_not_day_only convert_to_zoom_protocol args event out
  = (inr m, out') ->
  is_not_day_only event = inr (is_not_day_event m) /\
  (is_not_day_event m = false -> in_progress m = false) /\
  (is_not_day_event m && negb (in_progress m) = false ->
   is_next_joinable m = false).
Proof.
  unfold augment. intros H.
  apply bind_returns in H as (id & o1 & _ & H).
  apply bind_returns in H as (start_d & o2 & _ & H).
  apply bind_returns in H as (end_d & o3 & _ & H).
  apply bind_returns in H as (is_not_day & o4 & Htimed & H).
  apply bind_returns in H as (running & o5 & Hrun & H).
  apply bind_returns in H as (joinable & o6 & Hjoin & H).
  apply bind_returns in H as (title & o7 & _ & H).
  apply bind_returns in H as (link & o8 & _ & H).
  apply bind_returns in H as (zoom & o9 & _ & H).
  apply mret_returns in H as [<- _]. simpl.
  unfold lift in Htimed. injection Htimed as -> _.
  split; [reflexivity|]. split.
  - intros ->. now apply mret_returns in Hrun as [<- _].
  - intros Hcond. rewrite Hcond in Hjoin.
    now apply mret_returns in Hjoin as [<- _].
Qed.

(** C8: whatever [fromisoformat], [is_not_day_only] and
    [convert_to_zoom_protocol] do, an event that [augment] returns is never
    both in progress and joinable next, and is neither when it is a day
    event. *)
Theorem augment_flags_exclusive
    (args : Args) (event : Event) (out out' : output) (m : MyEvent) :
  augment fromisoformat is_not_day_only convert_to_zoom_protocol args event out
  = (inr m, out') ->
  ~ (in_progress m = true /\ is_next_joinable m = true) /\
  (is_not_day_event m = false ->
   in_progress m = false /\ is_next_joinable m = false).
Proof.
  intros H. apply augment_returned in H as (_ & Hday & Hjoin).
  destruct (is_not_day_event m), (in_progress m); simpl in *;
    intuition congruence.
Qed.

(** A day event is never compared with [now]: when [augment] returns it,
    it is marked as a day event with both flags down, whether or not its
    dates parse. *)
Lemma augment_day_event
    (args : Args) (event : Event) (out out' : output) (m : MyEvent) :
  is_not_day_only event = inr false ->
  augment fromisoformat is_not_day_only convert_to_zoom_protocol args event out
  = (inr m, out') ->
  is_not_day_event m = false /\ in_progress m = false /\ is_next_joinable m = false.
Proof.
  intros Hday H. apply augment_returned in H as (Htimed & Hrun & Hjoin).
  rewrite Hday in Htimed. injection Htimed as Hm. symmetry in Hm.
  rewrite Hm in *. simpl in *. auto.
Qed.

(** C1: [augment] is not total. On a timed event whose start is not a
    date [parse_event_datetime] gives [None], and the comparison of that
    [None] with [now] raises [TypeError]. *)
Theorem augment_unparsed_start
    (args : Args) (event : Event) (out : output) (id : string) (sd ed : dict) :
  ev_id event = Some id ->
  ev_start event = Some sd ->
  ev_end event = Some ed ->
  parse_event_datetime fromisoformat sd = None ->
  is_not_day_only event = inr true ->
  augment fromisoformat is_not_day_only convert_to_zoom_protocol args event out
  = (inl TypeError, out).
Proof.
  intros Hid Hstart Hend Hparse Htimed. unfold augment.
  rewrite Hid, Hstart, Hend. run. cbv beta iota zeta.
  rewrite Htimed, Hparse. reflexivity.
Qed.

(** The same happens on a timed event that has started and whose end is
    not a date. *)
Lemma augment_unparsed_end
    (args : Args) (event : Event) (out : output) (id : string) (sd ed : dict) :
  ev_id event = Some id ->
  ev_start event = Some sd ->
  ev_end event = Some ed ->
  dt_le (parse_event_datetime fromisoformat sd) (now args) = inr true ->
  parse_event_datetime fromisoformat ed = None ->
  is_not_day_only event = inr true ->
  augment fromisoformat is_not_day_only convert_to_zoom_protocol args event out
  = (inl TypeError, out).
Proof.
  intros Hid Hstart Hend Hle Hparse Htimed. unfold augment.
  rewrite Hid, Hstart, Hend. run. cbv beta iota zeta.
  rewrite Htimed, Hle, Hparse. reflexivity.
Qed.

(** [parse_event_datetime] itself never raises: without a parsable value
    it answers [None]. *)
Lemma parse_event_datetime_unparsable (d : dict) :
  (forall v, d !! "dateTime" = Some v -> fromisoformat v = None) ->
  (d !! "dateTime" = None -> forall v, d !! "date" = Some v -> fromisoformat v = None) ->
  parse_event_datetime fromisoformat d = None.
Proof.
  intros Hdt Hdate. unfold parse_event_datetime.
  destruct (d !! "dateTime") as [v|] eqn:E; [now apply Hdt|].
  destruct (d !! "date") as [v|] eqn:E'; [now apply Hdate|reflexivity].
Qed.

End NormalizerProperties.

(** ** Runs on concrete events *)

Example normalized_at_0958 :
  normalized [weekly; standup; one_on_one; planning] at_0958
  = [m_weekly; m_standup; m_one_on_one; m_planning].
Proof. vm_compute. reflexivity. Qed.

Example normalized_at_0930 :
  normalized [weekly; standup] at_0930 = [m_weekly; m_standup_early].
Proof. vm_compute. reflexivity. Qed.

(** Inside [parse_events] the [StopIteration] of [get_zoom_link] ends the
    iteration: the event and all later ones are dropped without a trace. *)
Example parse_events_truncated :
  Model.parse_events [weekly; design_review; standup] at_0958 []
  = (inr [m_weekly], []).
Proof. vm_compute. reflexivity. Qed.

Example augment_open_ended :
  Model.augment at_0958 open_ended [] = (inl TypeError, []).
Proof. vm_compute. reflexivity. Qed.

(** ** Ambiguity *)

(** C6: [find_meeting_to_join] returns [MultipleOptions] and selects no
    meeting when two or more meetings are joinable next and the number of
    meetings in progress is not one, or when none is joinable next and two
    or more are in progress. When two or more meetings are joinable next
    and exactly one meeting, [m], is in progress (every meeting before and
    after it is not), it returns [FoundNextMeeting] with [m]. *)
Theorem find_meeting_to_join_ambiguous
    (events : list MyEvent) (args : Args) (out : output) :
  (((2 <= count is_next_joinable events)%nat /\ count in_progress events <> 1%nat) \/
   (count is_next_joinable events = 0%nat /\ (2 <= count in_progress events)%nat) ->
   outcome (find_meeting_to_join events args) out = inr (MultipleOptions, None))
  /\
  (forall (pre post : list MyEvent) (m : MyEvent),
      events = pre ++ m :: post ->
      (2 <= count is_next_joinable events)%nat ->
      in_progress m = true ->
      (forall e, In e (pre ++ post) -> in_progress e = false) ->
      outcome (find_meeting_to_join events args) out = inr (FoundNextMeeting, Some m)).
Proof.
  rewrite find_meeting_to_join_outcome. unfold count. split.
  - destruct events as [|e0 events]; [simpl; lia|].
    destruct (List.filter is_next_joinable (e0 :: events)) as [|a [|b l]];
      destruct (List.filter in_progress (e0 :: events)) as [|c [|d l']];
      simpl; intros H; solve [reflexivity | lia].
  - intros pre post m -> Hmany Hm Hothers.
    rewrite (filter_only in_progress pre post m Hm Hothers).
    destruct (List.filter is_next_joinable (pre ++ m :: post)) as [|a [|b l]];
      [simpl in Hmany; lia | simpl in Hmany; lia |].
    destruct pre; reflexivity.
Qed.

(** C6 as the specification states it fails: with two meetings joinable
    next and one in progress, the one in progress is selected. *)
Lemma find_meeting_to_join_two_next_one_running :
  ~ (forall (events : list MyEvent) (args : Args) (out : output),
        events <> [] ->
        (2 <= count is_next_joinable events)%nat \/
        (count is_next_joinable events = 0%nat /\ (2 <= count in_progress events)%nat) ->
        outcome (find_meeting_to_join events args) out = inr (MultipleOptions, None)).
Proof.
  intros H.
  specialize (H (normalized [weekly; standup; one_on_one] at_0958) at_0958 []).
  assert (Hrun : outcome (find_meeting_to_join
                            (normalized [weekly; standup; one_on_one] at_0958) at_0958) []
                 = inr (FoundNextMeeting, Some m_weekly))
    by (vm_compute; reflexivity).
  rewrite Hrun in H.
  assert (Habs : @inr exn _ (FoundNextMeeting, Some m_weekly) = inr (MultipleOptions, None)).
  { apply H; [vm_compute; discriminate | left; vm_compute; lia]. }
  discriminate Habs.
Qed.

Lemma find_meeting_to_join_ambiguous_witness :
  outcome (find_meeting_to_join [m_standup; m_one_on_one] at_0958) []
  = inr (MultipleOptions, None) /\
  outcome (find_meeting_to_join ([m_standup] ++ m_weekly :: [m_one_on_one]) at_0958) []
  = inr (FoundNextMeeting, Some m_weekly).
Proof.
  split.
  - apply (find_meeting_to_join_ambiguous [m_standup; m_one_on_one] at_0958 []).
    left. split; [vm_compute; lia | vm_compute; discriminate].
  - apply (proj2 (find_meeting_to_join_ambiguous
                    ([m_standup] ++ m_weekly :: [m_one_on_one]) at_0958 [])
                 [m_standup] [m_one_on_one] m_weekly).
    + reflexivity.
    + vm_compute. lia.
    + reflexivity.
    + intros e [<-|[<-|[]]]; reflexivity.
Defined.

(** ** The properties at concrete events *)

Lemma find_meeting_to_join_one_next_witness :
  outcome (find_meeting_to_join ([m_weekly] ++ m_standup :: [m_planning]) at_0958) []
  = inr (FoundNextMeeting, Some m_standup).
Proof.
  apply (find_meeting_to_join_one_next [m_weekly] [m_planning] m_standup at_0958 []).
  - reflexivity.
  - intros e [<-|[<-|[]]]; reflexivity.
Defined.

Lemma find_meeting_to_join_one_in_progress_witness :
  outcome (find_meeting_to_join ([] ++ m_weekly :: [m_standup_early]) at_0930) []
  = inr (FoundNextMeeting, Some m_weekly).
Proof.
  apply (find_meeting_to_join_one_in_progress [] [m_standup_early] m_weekly at_0930 []).
  - intros e [<-|[<-|[]]]; reflexivity.
  - reflexivity.
  - intros e [<-|[]]; reflexivity.
Defined.

Lemma find_meeting_to_join_selects_candidate_witness :
  In m_standup [m_weekly; m_standup; m_planning] /\
  (is_next_joinable m_standup = true \/ in_progress m_standup = true).
Proof.
  apply (find_meeting_to_join_selects_candidate
           [m_weekly; m_standup; m_planning] at_0958 [] m_standup).
  vm_compute. reflexivity.
Defined.

Lemma get_zoom_link_from_location_witness :
  exists link,
    (forall event args out,
        ev_location event = Some "Room 4, https://zoom.us/j/111, https://zoom.us/j/222" ->
        get_zoom_link event args out = (inr (Some link), out)) /\
    contains zoom_us link = true /\
    (if contains "," "Room 4, https://zoom.us/j/111, https://zoom.us/j/222"
     then exists pre post,
         split comma "Room 4, https://zoom.us/j/111, https://zoom.us/j/222"
         = pre ++ link :: post /\
         forall seg, In seg pre -> contains zoom_us seg = false
     else link = "Room 4, https://zoom.us/j/111, https://zoom.us/j/222").
Proof.
  apply (get_zoom_link_from_location
           "Room 4, https://zoom.us/j/111, https://zoom.us/j/222").
  vm_compute. reflexivity.
Defined.

(** C3 as the specification states it fails: the link returned for the
    location "123 Main St, https://zoom.us/j/111" is not
    "https://zoom.us/j/111". *)
Lemma get_zoom_link_main_st_not_trimmed :
  outcome (get_zoom_link main_st at_0958) [] <> inr (Some "https://zoom.us/j/111").
Proof. vm_compute. discriminate. Qed.

Lemma get_zoom_link_main_st_witness :
  get_zoom_link main_st at_0958 [] = (inr (Some " https://zoom.us/j/111"), []).
Proof. apply (get_zoom_link_main_st main_st at_0958 []). reflexivity. Defined.

Lemma get_zoom_link_no_matching_entry_witness :
  get_zoom_link design_review at_0958 [] = (inl StopIteration, []).
Proof.
  apply (get_zoom_link_no_matching_entry design_review at_0958 [] meet_entry []).
  - reflexivity.
  - reflexivity.
  - intros e [<-|[]]. vm_compute. reflexivity.
Defined.

Lemma augment_flags_exclusive_witness :
  ~ (in_progress m_standup = true /\ is_next_joinable m_standup = true) /\
  (is_not_day_event m_standup = false ->
   in_progress m_standup = false /\ is_next_joinable m_standup = false).
Proof.
  apply (augment_flags_exclusive
           Model.fromisoformat Model.is_not_day_only Model.convert_to_zoom_protocol
           at_0958 standup [] [] m_standup).
  vm_compute. reflexivity.
Defined.

Lemma augment_unparsed_start_witness :
  Model.augment at_0958 garbled [] = (inl TypeError, []).
Proof.
  apply (augment_unparsed_start
           Model.fromisoformat Model.is_not_day_only Model.convert_to_zoom_protocol
           at_0958 garbled [] "g"
           {[ "dateTime" := "not-a-date" ]}
           {[ "dateTime" := "2024-01-01T10:30:00+00:00" ]}).
  - reflexivity.
  - reflexivity.
  - reflexivity.
  - vm_compute. reflexivity.
  - vm_compute. reflexivity.
Defined.

(** * Further properties of the code *)

(** ** The resolver: output, selection, order of the candidates *)

Lemma debug_run (message : string) (fmt : OutputFormat) (out : output) :
  _debug message fmt out = (inr tt, out ++ [(stream_of fmt, message)]).
Proof. destruct fmt; reflexivity. Qed.

(** The whole run of [find_meeting_to_join]. *)
Lemma find_meeting_to_join_run (events : list MyEvent) (args : Args) (out : output) :
  find_meeting_to_join events args out =
  (inr match events with
       | [] => (NoOptions, None)
       | _ :: _ =>
           match List.filter is_next_joinable events, List.filter in_progress events with
           | [e], _ => (FoundNextMeeting, Some e)
           | _, [e] => (FoundNextMeeting, Some e)
           | _, _ => (MultipleOptions, None)
           end
       end,
   out ++ [looking_line events args]).
Proof.
  unfold find_meeting_to_join, looking_line.
  unfold mbind, Py_bind, bind. rewrite debug_run.
  destruct events as [|e0 events]; [reflexivity|].
  cbv beta iota zeta.
  generalize (List.filter in_progress (e0 :: events)) as running.
  generalize (List.filter is_next_joinable (e0 :: events)) as upcoming.
  intros [|a [|b l]] [|c [|d l']]; reflexivity.
Qed.

(** X1: [find_meeting_to_join] never raises, whatever the candidates, and
    writes exactly one line: the number of candidates, on the stream of the
    format. *)
Theorem find_meeting_to_join_writes_one_line
    (events : list MyEvent) (args : Args) (out : output) :
  exists r,
    find_meeting_to_join events args out =
    (inr r,
     out ++ [(stream_of (format args),
              "Looking for next meeting. Have " +:+ pretty (length events)
              +:+ " candidates")]).
Proof. rewrite find_meeting_to_join_run. eexists. reflexivity. Qed.

(** X2: the answer of [find_meeting_to_join] carries a meeting exactly when
    it is [FoundNextMeeting], and it is [NoOptions] exactly when there is no
    candidate. *)
Theorem find_meeting_to_join_answer_shape
    (events : list MyEvent) (args : Args) (out : output)
    (answer : NextMeetingOptions) (selected : option MyEvent) :
  outcome (find_meeting_to_join events args) out = inr (answer, selected) ->
  (answer = FoundNextMeeting <-> selected <> None) /\
  (answer = NoOptions <-> events = []).
Proof.
  unfold outcome. rewrite find_meeting_to_join_run. simpl. intros H.
  destruct events as [|e0 events].
  - injection H as <- <-. split; split; intros; congruence.
  - destruct (List.filter is_next_joinable (e0 :: events)) as [|a [|b l]];
      destruct (List.filter in_progress (e0 :: events)) as [|c [|d l']];
      injection H as <- <-; split; split; intros; congruence.
Qed.

(** X3: candidates of which none is joinable next or in progress are
    answered with [MultipleOptions], also when there is one candidate
    only; [NoOptions] is kept for the empty list. *)
Theorem find_meeting_to_join_nothing_flagged
    (events : list MyEvent) (args : Args) (out : output) :
  events <> [] ->
  (forall e, In e events -> is_next_joinable e = false /\ in_progress e = false) ->
  outcome (find_meeting_to_join events args) out = inr (MultipleOptions, None).
Proof.
  intros Hne Hnone. unfold outcome. rewrite find_meeting_to_join_run. simpl.
  rewrite (filter_all_false is_next_joinable), (filter_all_false in_progress);
    try (intros e He; now apply Hnone).
  destruct events; [contradiction|reflexivity].
Qed.

Lemma filter_Permutation {A} (p : A -> bool) (xs ys : list A) :
  Permutation xs ys -> Permutation (List.filter p xs) (List.filter p ys).
Proof.
  induction 1 as [|x xs ys _ IH|x y xs|xs ys zs _ IH1 _ IH2]; simpl.
  - constructor.
  - destruct (p x); [now constructor | exact IH].
  - destruct (p x), (p y); try reflexivity. constructor.
  - now transitivity (List.filter p ys).
Qed.

(** Of two lists with the same elements, both hold the same single element
    or neither holds a single element. *)
Lemma Permutation_single {A} (xs ys : list A) :
  Permutation xs ys ->
  match xs, ys with
  | [x], [y] => x = y
  | [_], _ | _, [_] => False
  | _, _ => True
  end.
Proof.
  intros H. pose proof (Permutation_length H) as Hlen.
  destruct xs as [|x [|x' xs]], ys as [|y [|y' ys]]; try discriminate; auto.
  apply Permutation_length_1 in H. exact H.
Qed.

(** X4: the order of the candidates does not matter: on two lists with the
    same meetings [find_meeting_to_join] gives the same answer and writes
    the same line. *)
Theorem find_meeting_to_join_order_irrelevant
    (events events' : list MyEvent) (args : Args) (out : output) :
  Permutation events events' ->
  find_meeting_to_join events args out = find_meeting_to_join events' args out.
Proof.
  intros H. rewrite !find_meeting_to_join_run. unfold looking_line.
  rewrite (Permutation_length H).
  pose proof (Permutation_single _ _ (filter_Permutation is_next_joinable _ _ H)) as Hn.
  pose proof (Permutation_single _ _ (filter_Permutation in_progress _ _ H)) as Hr.
  destruct events as [|e0 events], events' as [|e0' events'];
    [ reflexivity
    | now apply Permutation_nil_cons in H
    | symmetry in H; now apply Permutation_nil_cons in H
    | ].
  destruct (List.filter is_next_joinable (e0 :: events)) as [|a [|b l]];
    destruct (List.filter is_next_joinable (e0' :: events')) as [|a' [|b' l']];
    try contradiction; subst;
    destruct (List.filter in_progress (e0 :: events)) as [|c [|d k]];
    destruct (List.filter in_progress (e0' :: events')) as [|c' [|d' k']];
    try contradiction; subst; reflexivity.
Qed.

(** ** The link extractor: all its outcomes *)

(** Unfolds the steps of a computation and keeps [_debug]. *)
Ltac step :=
  unfold item, first_item, mbind, mret, Py_bind, Py_ret, bind, ret, raise, lift in *.

Lemma next_returns {A} (p : A -> bool) (xs : list A) (x : A) :
  next p xs = inr x -> In x xs /\ p x = true.
Proof.
  unfold next. destruct (List.filter p xs) as [|y ys] eqn:E; [discriminate|].
  intros [= <-]. apply List.filter_In. rewrite E. now left.
Qed.

Lemma next_raises {A} (p : A -> bool) (xs : list A) (e : exn) :
  next p xs = inl e -> e = StopIteration /\ forall x, In x xs -> p x = false.
Proof.
  unfold next. destruct (List.filter p xs) as [|y ys] eqn:E; [|discriminate].
  intros [= <-]. split; [reflexivity|]. intros x Hx.
  destruct (p x) eqn:Hp; [|reflexivity].
  assert (Hin : In x (List.filter p xs)) by (apply List.filter_In; auto).
  rewrite E in Hin. contradiction.
Qed.

Lemma next_at {A} (p : A -> bool) (pre post : list A) (x : A) :
  (forall z, In z pre -> p z = false) -> p x = true ->
  next p (pre ++ x :: post) = inr x.
Proof.
  intros Hpre Hx. unfold next. rewrite List.filter_app.
  rewrite (filter_all_false p pre Hpre). simpl. now rewrite Hx.
Qed.

(** An entry point passes the test of [get_zoom_link] only through the
    value under its "uri", and is then not the empty dictionary. *)
Lemma entry_matches (ep : dict) :
  contains zoom_us (default "" (ep !! "uri")) = true ->
  exists u, ep !! "uri" = Some u /\ contains zoom_us u = true /\ ep <> ∅.
Proof.
  destruct (ep !! "uri") as [u|] eqn:E; simpl; [|discriminate].
  intros Hu. exists u. repeat split; auto.
  intros ->. rewrite lookup_empty in E. discriminate.
Qed.

(** The outcomes of [get_zoom_link], branch by branch. *)
Lemma get_zoom_link_cases (event : Event) (args : Args) (out : output) :
  (contains zoom_us (default "" (ev_location event)) = true /\
   exists l, contains zoom_us l = true /\
             get_zoom_link event args out = (inr (Some l), out))
  \/
  (contains zoom_us (default "" (ev_location event)) = false /\
   entry_points event = [] /\
   match ev_summary event with
   | Some s => get_zoom_link event args out = (inr None, out ++ [no_data_line s args])
   | None => get_zoom_link event args out = (inl (KeyError "summary"), out)
   end)
  \/
  (contains zoom_us (default "" (ev_location event)) = false /\
   entry_points event <> [] /\
   ((exists ep u, In ep (entry_points event) /\ ep !! "uri" = Some u /\
                  contains zoom_us u = true /\
                  get_zoom_link event args out = (inr (Some u), out))
    \/
    ((forall ep : dict, In ep (entry_points event) ->
                        contains zoom_us (default "" (ep !! "uri")) = false) /\
     get_zoom_link event args out = (inl StopIteration, out)))).
Proof.
  unfold get_zoom_link.
  destruct (contains zoom_us (default "" (ev_location event))) eqn:Hloc.
  - left. split; [reflexivity|].
    destruct (contains "," (default "" (ev_location event))) eqn:Hcomma.
    + destruct (contains_segment comma zoom_us eq_refl _ Hloc) as (seg & Hseg & Hc).
      destruct (next_first (contains zoom_us) _ seg Hseg Hc)
        as (pre & l & post & _ & _ & Hl & Hnext).
      exists l. split; [exact Hl|]. run. now rewrite Hnext.
    + exists (default "" (ev_location event)). split; [exact Hloc|reflexivity].
  - right. destruct (entry_points event) as [|ep0 eps] eqn:Heps; cbv zeta iota.
    + left. repeat split. destruct (ev_summary event) as [s|]; [|reflexivity].
      unfold no_data_line. step. now rewrite debug_run.
    + right. repeat split; [discriminate|].
      destruct (next (fun ep : dict => contains zoom_us (default "" (ep !! "uri")))
                     (ep0 :: eps)) as [e|found] eqn:Hnext.
      * right. apply next_raises in Hnext as [-> Hnone]. split; [exact Hnone|].
        reflexivity.
      * left. pose proof (next_returns _ _ _ Hnext) as [Hin Hfound].
        apply entry_matches in Hfound as (u & Hu & Hcu & Hne).
        exists found, u. repeat split; auto.
        run. rewrite (bool_decide_eq_true_2 _ Hne), Hu. reflexivity.
Qed.

(** X5: a link [get_zoom_link] returns contains "zoom.us", and finding it
    writes nothing. *)
Theorem get_zoom_link_found_has_marker
    (event : Event) (args : Args) (out out' : output) (link : string) :
  get_zoom_link event args out = (inr (Some link), out') ->
  contains zoom_us link = true /\ out' = out.
Proof.
  intros H.
  destruct (get_zoom_link_cases event args out)
    as [(_ & l & Hl & E) | [(_ & _ & E) | (_ & _ & [(ep & u & _ & _ & Hu & E) | (_ & E)])]].
  - rewrite E in H. injection H as <- <-. auto.
  - destruct (ev_summary event); rewrite E in H; discriminate.
  - rewrite E in H. injection H as <- <-. auto.
  - rewrite E in H. discriminate.
Qed.

(** X6: an event without "zoom.us" in its location and with no entry point
    (no conference data, or an empty list) does not make [get_zoom_link]
    raise: it returns [None] and writes one line that names the event. *)
Theorem get_zoom_link_no_conference_data
    (event : Event) (args : Args) (out : output) (title : string) :
  contains zoom_us (default "" (ev_location event)) = false ->
  entry_points event = [] ->
  ev_summary event = Some title ->
  get_zoom_link event args out =
  (inr None, out ++ [(stream_of (format args), "No conference data found for " +:+ title)]).
Proof.
  intros Hloc Heps Hsum. unfold get_zoom_link. rewrite Hloc, Heps, Hsum.
  step. now rewrite debug_run.
Qed.

(** X7: the same event without a "summary" makes [get_zoom_link] raise
    [KeyError]: the line it wants to write needs the title. *)
Theorem get_zoom_link_untitled
    (event : Event) (args : Args) (out : output) :
  contains zoom_us (default "" (ev_location event)) = false ->
  entry_points event = [] ->
  ev_summary event = None ->
  get_zoom_link event args out = (inl (KeyError "summary"), out).
Proof.
  intros Hloc Heps Hsum. unfold get_zoom_link. rewrite Hloc, Heps, Hsum.
  reflexivity.
Qed.

(** X8: without "zoom.us" in the location, the link is the URI of the first
    entry point whose URI contains "zoom.us"; entry points before it without
    such a URI, or without a URI at all, are passed over. *)
Theorem get_zoom_link_first_entry
    (event : Event) (args : Args) (out : output)
    (pre post : list dict) (ep : dict) (uri : string) :
  contains zoom_us (default "" (ev_location event)) = false ->
  entry_points event = pre ++ ep :: post ->
  (forall e : dict, In e pre -> contains zoom_us (default "" (e !! "uri")) = false) ->
  ep !! "uri" = Some uri ->
  contains zoom_us uri = true ->
  get_zoom_link event args out = (inr (Some uri), out).
Proof.
  intros Hloc Heps Hpre Huri Hmark. unfold get_zoom_link. rewrite Hloc, Heps.
  assert (Hnext : next (fun e : dict => contains zoom_us (default "" (e !! "uri")))
                       (pre ++ ep :: post) = inr ep).
  { apply next_at; [exact Hpre|]. now rewrite Huri. }
  assert (Hne : ep <> ∅).
  { intros ->. rewrite lookup_empty in Huri. discriminate. }
  destruct (pre ++ ep :: post) as [|e0 es] eqn:E; [now destruct pre|].
  run. rewrite Hnext, (bool_decide_eq_true_2 _ Hne), Huri. reflexivity.
Qed.

(** X9: [get_zoom_link] returns [None] in one situation only: no "zoom.us"
    in the location and no entry point at all. With entry points it returns
    a link or raises, so the line "Conference data found, but no zoom links
    in it" is never written. *)
Theorem get_zoom_link_none_only_without_entries
    (event : Event) (args : Args) (out out' : output) :
  get_zoom_link event args out = (inr None, out') ->
  contains zoom_us (default "" (ev_location event)) = false /\
  entry_points event = [] /\
  exists title,
    ev_summary event = Some title /\
    out' = out ++ [(stream_of (format args), "No conference data found for " +:+ title)].
Proof.
  intros H.
  destruct (get_zoom_link_cases event args out)
    as [(_ & l & _ & E) | [(Hloc & Heps & E) | (_ & _ & [(ep & u & _ & _ & _ & E) | (_ & E)])]];
    try (rewrite E in H; discriminate).
  destruct (ev_summary event) as [title|]; rewrite E in H; [|discriminate].
  injection H as <-. repeat split; auto. exists title. auto.
Qed.

(** X10: when [has_zoom_link] returns, it answers [True] exactly for the
    events with "zoom.us" in the location or in the URI of an entry point. *)
Theorem has_zoom_link_iff
    (event : Event) (args : Args) (out out' : output) (b : bool) :
  has_zoom_link event args out = (inr b, out') ->
  (b = true <->
   contains zoom_us (default "" (ev_location event)) = true \/
   exists ep : dict, In ep (entry_points event) /\
                     contains zoom_us (default "" (ep !! "uri")) = true).
Proof.
  unfold has_zoom_link. intros H.
  apply bind_returns in H as (link & o1 & Hlink & H).
  apply mret_returns in H as [<- _].
  destruct (get_zoom_link_cases event args out)
    as [(Hloc & l & _ & E) | [(Hloc & Heps & E) | (Hloc & _ & [(ep & u & Hin & Hu & Hcu & E) | (_ & E)])]].
  - rewrite E in Hlink. injection Hlink as <- _. split; [auto|].
    intros _. apply bool_decide_eq_true_2. discriminate.
  - destruct (ev_summary event); rewrite E in Hlink; [|discriminate].
    injection Hlink as <- _. split; [intros Hb; apply bool_decide_eq_true_1 in Hb; congruence|].
    rewrite Heps. intros [Hl | (ep & [] & _)]. congruence.
  - rewrite E in Hlink. injection Hlink as <- _. split.
    + intros _. right. exists ep. split; [exact Hin|]. now rewrite Hu.
    + intros _. apply bool_decide_eq_true_2. discriminate.
  - rewrite E in Hlink. discriminate.
Qed.

(** A link found is not the empty string. *)
Lemma get_zoom_link_found_nonempty
    (event : Event) (args : Args) (out out' : output) (link : string) :
  get_zoom_link event args out = (inr (Some link), out') ->
  String.eqb link "" = false.
Proof.
  intros H.
  assert (Hmark : contains zoom_us link = true).
  { destruct (get_zoom_link_cases event args out)
      as [(_ & l & Hl & E) | [(_ & _ & E) | (_ & _ & [(ep & u & _ & _ & Hu & E) | (_ & E)])]].
    - rewrite E in H. now injection H as <- _.
    - destruct (ev_summary event); rewrite E in H; discriminate.
    - rewrite E in H. now injection H as <- _.
    - rewrite E in H. discriminate. }
  destruct (String.eqb_spec link "") as [->|_]; [discriminate|reflexivity].
Qed.

(** ** The normalizer: what a returned event says about the raw event *)

Lemma item_returns {A} (key : string) (field : option A) (out out' : output) (v : A) :
  item key field out = (inr v, out') -> field = Some v /\ out' = out.
Proof. destruct field; unfold item, ret, raise; intros [= <- <-] || intros [=]; auto. Qed.

Lemma lift_returns {A} (r : exn + A) (out out' : output) (v : A) :
  lift r out = (inr v, out') -> r = inr v /\ out' = out.
Proof. unfold lift. intros [= -> <-]. auto. Qed.

(** A comparison with [now] answers only for a datetime of the same kind,
    naive or aware, as [now]. *)
Lemma compare_with_answers
    (op : Z -> Z -> bool) (a : option datetime) (b : datetime) (r : bool) :
  compare_with op a b = inr r <->
  exists s x y, a = Some s /\ aligned s b = inr (x, y) /\ r = op x y.
Proof.
  unfold compare_with. split.
  - destruct a as [s|]; [|discriminate].
    destruct (aligned s b) as [e|[x y]] eqn:E; [discriminate|].
    intros [= <-]. exists s, x, y. repeat split; auto.
  - intros (s & x & y & -> & -> & ->). reflexivity.
Qed.

Lemma dt_sub_answers (a : option datetime) (b : datetime) (d : timedelta) :
  dt_sub a b = inr d <->
  exists s x y, a = Some s /\ aligned s b = inr (x, y) /\ d = x - y.
Proof.
  unfold dt_sub. split.
  - destruct a as [s|]; [|discriminate].
    destruct (aligned s b) as [e|[x y]] eqn:E; [discriminate|].
    intros [= <-]. exists s, x, y. repeat split; auto.
  - intros (s & x & y & -> & -> & ->). reflexivity.
Qed.

Section NormalizerReturns.

Variable fromisoformat : string -> option datetime.
Variable is_not_day_only : Event -> exn + bool.
Variable convert_to_zoom_protocol : string -> exn + string.

(** Everything a returned event rests on. *)
Lemma augment_inversion
    (args : Args) (event : Event) (out out' : output) (m : MyEvent) :
  augment fromisoformat is_not_day_only convert_to_zoom_protocol args event out
  = (inr m, out') ->
  exists (sd ed : dict) (link : option string),
    ev_id event = Some (event_id m) /\
    ev_start event = Some sd /\
    ev_end event = Some ed /\
    ev_summary event = Some (summary m) /\
    is_not_day_only event = inr (is_not_day_event m) /\
    start m = parse_event_datetime fromisoformat sd /\
    (in_progress m = true <->
     is_not_day_event m = true /\
     dt_le (start m) (now args) = inr true /\
     dt_ge (parse_event_datetime fromisoformat ed) (now args) = inr true) /\
    (is_next_joinable m = true <->
     is_not_day_event m = true /\ in_progress m = false /\
     dt_gt (start m) (now args) = inr true /\
     exists delta, dt_sub (start m) (now args) = inr delta /\
                   delta < minutes JOINABLE_IF_NEXT_STARTS_WITHIN) /\
    get_zoom_link event args out = (inr link, out') /\
    match link with
    | Some l =>
        if String.eqb l "" then zoom_link m = None
        else exists z, convert_to_zoom_protocol l = inr z /\ zoom_link m = Some z
    | None => zoom_link m = None
    end /\
    icon m = Some (if contains "1:1" (summary m) then "one.png"
                   else if contains "Standup" (summary m) then "standup.png"
                   else "icon.png").
Proof.
  unfold augment. intros H.
  apply bind_returns in H as (id & o1 & Hid & H).
  apply item_returns in Hid as [Hid ->].
  apply bind_returns in H as (sd & o2 & Hsd & H).
  apply item_returns in Hsd as [Hsd ->].
  apply bind_returns in H as (ed & o3 & Hed & H).
  apply item_returns in Hed as [Hed ->].
  apply bind_returns in H as (timed & o4 & Htimed & H).
  apply lift_returns in Htimed as [Htimed ->].
  apply bind_returns in H as (running & o5 & Hrun & H).
  apply bind_returns in H as (joinable & o6 & Hjoin & H).
  apply bind_returns in H as (title & o7 & Htitle & H).
  apply item_returns in Htitle as [Htitle ->].
  apply bind_returns in H as (link & o8 & Hlink & H).
  apply bind_returns in H as (zoom & o9 & Hzoom & H).
  apply mret_returns in H as [<- <-]. simpl.
  exists sd, ed, link.
  assert (Hrunning :
            (running = true <->
             timed = true /\
             dt_le (parse_event_datetime fromisoformat sd) (now args) = inr true /\
             dt_ge (parse_event_datetime fromisoformat ed) (now args) = inr true)
            /\ o5 = out).
  { destruct timed.
    - apply bind_returns in Hrun as (started & o & Hle & Hrun).
      apply lift_returns in Hle as [Hle ->].
      destruct started.
      + apply lift_returns in Hrun as [Hge ->]. split; [|reflexivity].
        rewrite Hle, Hge. split; [intros ->; auto | intros (_ & _ & [= ->]); reflexivity].
      + apply mret_returns in Hrun as [<- <-]. split; [|reflexivity].
        rewrite Hle. split; [discriminate | intros (_ & [=] & _)].
    - apply mret_returns in Hrun as [<- <-]. split; [|reflexivity].
      split; [discriminate | intros ([=] & _)]. }
  destruct Hrunning as [Hrunning ->].
  assert (Hjoinable :
            (joinable = true <->
             timed = true /\ running = false /\
             dt_gt (parse_event_datetime fromisoformat sd) (now args) = inr true /\
             exists delta,
               dt_sub (parse_event_datetime fromisoformat sd) (now args) = inr delta /\
               delta < minutes JOINABLE_IF_NEXT_STARTS_WITHIN)
            /\ o6 = out).
  { destruct timed, running; simpl in Hjoin;
      try (apply mret_returns in Hjoin as [<- <-]; split; [|reflexivity];
           split; [discriminate | intros (? & ? & _); discriminate]).
    apply bind_returns in Hjoin as (later & o & Hgt & Hjoin).
    apply lift_returns in Hgt as [Hgt ->].
    destruct later.
    - apply bind_returns in Hjoin as (delta & o & Hsub & Hjoin).
      apply lift_returns in Hsub as [Hsub ->].
      apply mret_returns in Hjoin as [<- <-]. split; [|reflexivity].
      rewrite Hgt, Hsub. split.
      + intros Hlt. repeat split. exists delta. split; [reflexivity|].
        now apply Z.ltb_lt.
      + intros (_ & _ & _ & d & [= <-] & Hlt). now apply Z.ltb_lt.
    - apply mret_returns in Hjoin as [<- <-]. split; [|reflexivity].
      rewrite Hgt. split; [discriminate | intros (_ & _ & [=] & _)]. }
  destruct Hjoinable as [Hjoinable ->].
  assert (Hz : match link with
               | Some l =>
                   if String.eqb l "" then zoom = None
                   else exists z, convert_to_zoom_protocol l = inr z /\ zoom = Some z
               | None => zoom = None
               end /\ o9 = o8).
  { destruct link as [l|].
    - destruct (String.eqb l "").
      + now apply mret_returns in Hzoom as [<- <-].
      + apply bind_returns in Hzoom as (z & o & Hconv & Hzoom).
        apply lift_returns in Hconv as [Hconv ->].
        apply mret_returns in Hzoom as [<- <-]. split; [|reflexivity].
        exists z. auto.
    - now apply mret_returns in Hzoom as [<- <-]. }
  destruct Hz as [Hz ->].
  repeat (split; [first [assumption | reflexivity]|]). reflexivity.
Qed.

(** X11: a returned event is joinable next exactly when it is timed and
    starts after [now] and less than three minutes (180000000 microseconds)
    after it, both taken as naive or both as instants in UTC. *)
Theorem augment_joinable_window
    (args : Args) (event : Event) (out out' : output) (m : MyEvent) :
  augment fromisoformat is_not_day_only convert_to_zoom_protocol args event out
  = (inr m, out') ->
  (is_next_joinable m = true <->
   is_not_day_event m = true /\
   exists s x y, start m = Some s /\ aligned s (now args) = inr (x, y) /\
                 y < x < y + 180000000).
Proof.
  intros H. apply augment_inversion in H
    as (sd & ed & link & _ & _ & _ & _ & _ & _ & Hrun & Hjoin & _).
  rewrite Hjoin. change (minutes JOINABLE_IF_NEXT_STARTS_WITHIN) with 180000000.
  split.
  - intros (Htimed & _ & Hgt & delta & Hsub & Hlt). split; [exact Htimed|].
    apply compare_with_answers in Hgt as (s & x & y & Hs & Ha & Hxy).
    apply dt_sub_answers in Hsub as (s' & x' & y' & Hs' & Ha' & ->).
    rewrite Hs in Hs'. injection Hs' as <-. rewrite Ha in Ha'. injection Ha' as <- <-.
    exists s, x, y. repeat split; auto; lia.
  - intros (Htimed & s & x & y & Hs & Ha & Hxy). split; [exact Htimed|]. split.
    + destruct (in_progress m) eqn:E; [|reflexivity].
      destruct Hrun as [Hrun _]. destruct (Hrun eq_refl) as (_ & Hle & _).
      apply compare_with_answers in Hle as (s' & x' & y' & Hs' & Ha' & Hle).
      rewrite Hs in Hs'. injection Hs' as <-. rewrite Ha in Ha'. injection Ha' as <- <-.
      symmetry in Hle. apply Z.leb_le in Hle. lia.
    + split.
      * apply compare_with_answers. exists s, x, y. repeat split; auto.
        symmetry. apply Z.gtb_gt. lia.
      * exists (x - y). split; [|lia].
        apply dt_sub_answers. exists s, x, y. repeat split; auto.
Qed.

(** X12: a returned event is in progress exactly when it is timed, its start
    and its end both parse, and [now] lies between them, the ends
    included. *)
Theorem augment_in_progress_iff
    (args : Args) (event : Event) (out out' : output) (m : MyEvent) :
  augment fromisoformat is_not_day_only convert_to_zoom_protocol args event out
  = (inr m, out') ->
  (in_progress m = true <->
   is_not_day_event m = true /\
   exists ed s e x y x' y',
     ev_end event = Some ed /\ start m = Some s /\
     parse_event_datetime fromisoformat ed = Some e /\
     aligned s (now args) = inr (x, y) /\ aligned e (now args) = inr (x', y') /\
     x <= y /\ y' <= x').
Proof.
  intros H. apply augment_inversion in H
    as (sd & ed & link & _ & _ & Hed & _ & _ & _ & Hrun & _).
  rewrite Hrun. split.
  - intros (Htimed & Hle & Hge). split; [exact Htimed|].
    apply compare_with_answers in Hle as (s & x & y & Hs & Ha & Hle).
    apply compare_with_answers in Hge as (e & x' & y' & He & Ha' & Hge).
    symmetry in Hle, Hge. apply Z.leb_le in Hle. apply Z.geb_le in Hge.
    exists ed, s, e, x, y, x', y'. repeat split; auto.
  - intros (Htimed & ed' & s & e & x & y & x' & y' & Hed' & Hs & He & Ha & Ha' & Hle & Hge).
    rewrite Hed in Hed'. injection Hed' as <-.
    split; [exact Htimed|]. split; apply compare_with_answers.
    + exists s, x, y. repeat split; auto. symmetry. now apply Z.leb_le.
    + exists e, x', y'. repeat split; auto. symmetry. now apply Z.geb_le.
Qed.

(** X13: the test [if link:] never drops a link: when [augment] returns,
    [get_zoom_link] returned on the same output, and the event has no
    [zoom_link] exactly when no link was found; a link found went through
    [convert_to_zoom_protocol]. *)
Theorem augment_link_converted
    (args : Args) (event : Event) (out out' : output) (m : MyEvent) :
  augment fromisoformat is_not_day_only convert_to_zoom_protocol args event out
  = (inr m, out') ->
  exists link,
    get_zoom_link event args out = (inr link, out') /\
    match link, zoom_link m with
    | Some l, Some z => convert_to_zoom_protocol l = inr z
    | None, None => True
    | _, _ => False
    end.
Proof.
  intros H. apply augment_inversion in H
    as (sd & ed & link & _ & _ & _ & _ & _ & _ & _ & _ & Hlink & Hz & _).
  exists link. split; [exact Hlink|].
  destruct link as [l|]; [|now rewrite Hz].
  rewrite (get_zoom_link_found_nonempty _ _ _ _ _ Hlink) in Hz.
  destruct Hz as (z & Hconv & ->). exact Hconv.
Qed.

(** X14: on a timed event whose start parses, [augment] raises [TypeError]
    when the start is aware and [now] is naive, or the other way round. *)
Theorem augment_mixed_awareness
    (args : Args) (event : Event) (out : output)
    (id : string) (sd ed : dict) (s : datetime) :
  ev_id event = Some id ->
  ev_start event = Some sd ->
  ev_end event = Some ed ->
  is_not_day_only event = inr true ->
  parse_event_datetime fromisoformat sd = Some s ->
  (is_Some (utcoffset s) <-> utcoffset (now args) = None) ->
  augment fromisoformat is_not_day_only convert_to_zoom_protocol args event out
  = (inl TypeError, out).
Proof.
  intros Hid Hsd Hed Htimed Hs Hmix. unfold augment.
  rewrite Hid, Hsd, Hed. run. cbv beta iota zeta. rewrite Htimed, Hs.
  unfold dt_le, compare_with, aligned.
  destruct (utcoffset s) as [o|], (utcoffset (now args)) as [o'|]; try reflexivity.
  - destruct Hmix as [Hmix _]. now specialize (Hmix (mk_is_Some _ _ eq_refl)).
  - destruct Hmix as [_ Hmix]. destruct (Hmix eq_refl) as [? [=]].
Qed.

(** X15: an event that lacks "id", "start" or "end" makes [augment] raise
    the [KeyError] of the first of them that is missing, before anything
    else is looked at. *)
Theorem augment_missing_key
    (args : Args) (event : Event) (out : output) :
  ev_id event = None \/ ev_start event = None \/ ev_end event = None ->
  augment fromisoformat is_not_day_only convert_to_zoom_protocol args event out
  = (inl (KeyError match ev_id event, ev_start event with
                   | None, _ => "id"
                   | Some _, None => "start"
                   | Some _, Some _ => "end"
                   end), out).
Proof.
  intros H. unfold augment.
  destruct (ev_id event) as [id|]; [|reflexivity].
  destruct (ev_start event) as [sd|]; [|reflexivity].
  destruct (ev_end event) as [ed|]; [|reflexivity].
  destruct H as [H|[H|H]]; discriminate.
Qed.

(** X16: [augment] returns only for an event with "id", "start", "end" and
    "summary"; the returned event has that id and title, the parsed start,
    and the answer of [is_not_day_only]. *)
Theorem augment_requires_keys
    (args : Args) (event : Event) (out out' : output) (m : MyEvent) :
  augment fromisoformat is_not_day_only convert_to_zoom_protocol args event out
  = (inr m, out') ->
  ev_id event = Some (event_id m) /\
  ev_summary event = Some (summary m) /\
  is_Some (ev_end event) /\
  is_not_day_only event = inr (is_not_day_event m) /\
  exists sd, ev_start event = Some sd /\
             start m = parse_event_datetime fromisoformat sd.
Proof.
  intros H. apply augment_inversion in H
    as (sd & ed & link & Hid & Hsd & Hed & Hsum & Htimed & Hstart & _).
  repeat split; auto. exists sd. auto.
Qed.

(** X17: [parse_event_datetime] reads "dateTime" and "date" only: a value
    under any other key, such as "timeZone", changes nothing. *)
Theorem parse_event_datetime_other_keys (d : dict) (key v : string) :
  key <> "dateTime" -> key <> "date" ->
  parse_event_datetime fromisoformat (<[key := v]> d)
  = parse_event_datetime fromisoformat d.
Proof.
  intros H1 H2. unfold parse_event_datetime.
  now rewrite !lookup_insert_ne by assumption.
Qed.

End NormalizerReturns.


(** ** Where the output goes *)

Lemma appends_on_ret (s : stream) {A} (x : A) : appends_on s (mret (M := Py) x).
Proof. intros out. exists []. rewrite app_nil_r. split; [reflexivity | constructor]. Qed.

Lemma appends_on_lift (s : stream) {A} (r : exn + A) : appends_on s (lift r).
Proof. intros out. exists []. rewrite app_nil_r. split; [reflexivity | constructor]. Qed.

Lemma appends_on_item (s : stream) {A} (key : string) (field : option A) :
  appends_on s (item key field).
Proof.
  intros out. exists []. rewrite app_nil_r.
  split; [destruct field; reflexivity | constructor].
Qed.

Lemma appends_on_debug (message : string) (fmt : OutputFormat) :
  appends_on (stream_of fmt) (_debug message fmt).
Proof.
  intros out. exists [(stream_of fmt, message)]. rewrite debug_run.
  split; [reflexivity | repeat constructor].
Qed.

Lemma appends_on_bind (s : stream) {A B} (m : Py A) (k : A -> Py B) :
  appends_on s m -> (forall x, appends_on s (k x)) -> appends_on s (m ≫= k).
Proof.
  intros Hm Hk out. unfold mbind, Py_bind, bind.
  destruct (Hm out) as (e1 & E1 & H1).
  destruct (m out) as [[x|a] o1]; simpl in E1; subst o1.
  - exists e1. auto.
  - destruct (Hk a (out ++ e1)) as (e2 & E2 & H2).
    exists (e1 ++ e2). rewrite E2, app_assoc. split; [reflexivity|].
    apply Forall_app. auto.
Qed.

Lemma get_zoom_link_appends (event : Event) (args : Args) :
  appends_on (stream_of (format args)) (get_zoom_link event args).
Proof.
  intros out.
  destruct (get_zoom_link_cases event args out)
    as [(_ & l & _ & E) | [(_ & _ & E) | (_ & _ & [(ep & u & _ & _ & _ & E) | (_ & E)])]];
    try (exists []; rewrite E, app_nil_r; split; [reflexivity | constructor]).
  destruct (ev_summary event) as [title|]; rewrite E.
  - exists [no_data_line title args]. split; [reflexivity | repeat constructor].
  - exists []. rewrite app_nil_r. split; [reflexivity | constructor].
Qed.

(** Splits a computation into its steps. *)
Ltac appends :=
  repeat first
    [ apply appends_on_ret | apply appends_on_lift | apply appends_on_item
    | apply appends_on_debug | apply get_zoom_link_appends
    | apply appends_on_bind; [|intros ?]
    | match goal with
      | |- appends_on _ (if ?b then _ else _) => destruct b
      | |- appends_on _ (match ?o with Some _ => _ | None => _ end) => destruct o
      end
    | progress cbv zeta ].

(** ** The normalizer over a list of events *)

Section ParseEvents.

Variable fromisoformat : string -> option datetime.
Variable is_not_day_only : Event -> exn + bool.
Variable convert_to_zoom_protocol : string -> exn + string.

Let augment' := augment fromisoformat is_not_day_only convert_to_zoom_protocol.
Let parse_events' := parse_events fromisoformat is_not_day_only convert_to_zoom_protocol.

Lemma parse_events_cons
    (event : Event) (events : list Event) (args : Args) (out : output) :
  parse_events' (event :: events) args out =
  match augment' args event out with
  | (inr e, out') =>
      match parse_events' events args out' with
      | (inr es, out'') => (inr (e :: es), out'')
      | (inl x, out'') => (inl x, out'')
      end
  | (inl StopIteration, out') => (inr [], out')
  | (inl x, out') => (inl x, out')
  end.
Proof. reflexivity. Qed.

(** What holds of every returned pair of a raw and an augmented event holds
    along the list that [parse_events] returns, which answers to a leading
    part of the raw events. *)
Lemma parse_events_Forall2 (P : Event -> MyEvent -> Prop) (args : Args) :
  (forall e o m o', augment' args e o = (inr m, o') -> P e m) ->
  forall events out ms out',
    parse_events' events args out = (inr ms, out') ->
    exists kept dropped, events = kept ++ dropped /\ Forall2 P kept ms.
Proof.
  intros HP. induction events as [|e es IH]; intros out ms out' H.
  - injection H as <- _. exists [], []. split; [reflexivity | constructor].
  - rewrite parse_events_cons in H.
    destruct (augment' args e out) as [[x|m] o1] eqn:Ha.
    + destruct x; try discriminate. injection H as <- _.
      exists [], (e :: es). split; [reflexivity | constructor].
    + destruct (parse_events' es args o1) as [[x|ms'] o2] eqn:Hp; [discriminate|].
      injection H as <- _.
      destruct (IH _ _ _ Hp) as (kept & dropped & -> & Hall).
      exists (e :: kept), dropped. split; [reflexivity|].
      constructor; [exact (HP _ _ _ _ Ha) | exact Hall].
Qed.

(** X18: the list [parse_events] returns is made of the augmented events of
    a leading part of the raw events, one for one and in order; it is never
    longer than the list of raw events. *)
Theorem parse_events_prefix
    (events : list Event) (args : Args) (out out' : output) (ms : list MyEvent) :
  parse_events fromisoformat is_not_day_only convert_to_zoom_protocol events args out
  = (inr ms, out') ->
  exists kept dropped,
    events = kept ++ dropped /\
    Forall2 (fun e m => exists o o',
                 augment fromisoformat is_not_day_only convert_to_zoom_protocol
                   args e o = (inr m, o'))
            kept ms /\
    (length ms <= length events)%nat.
Proof.
  intros H.
  destruct (parse_events_Forall2
              (fun e m => exists o o', augment' args e o = (inr m, o')) args
              (fun e o m o' Ha => ex_intro _ o (ex_intro _ o' Ha)) _ _ _ _ H)
    as (kept & dropped & -> & Hall).
  exists kept, dropped. repeat split; auto.
  rewrite <- (Forall2_length _ _ _ Hall), length_app. lia.
Qed.

(** X19: an event on which [augment] raises [StopIteration] ends the list:
    the events before it are returned, and it and all events after it are
    left out without an error. *)
Theorem parse_events_truncates
    (pre post : list Event) (e : Event) (args : Args)
    (out out1 out2 : output) (ms : list MyEvent) :
  parse_events fromisoformat is_not_day_only convert_to_zoom_protocol pre args out
  = (inr ms, out1) ->
  length ms = length pre ->
  augment fromisoformat is_not_day_only convert_to_zoom_protocol args e out1
  = (inl StopIteration, out2) ->
  parse_events fromisoformat is_not_day_only convert_to_zoom_protocol
    (pre ++ e :: post) args out
  = (inr ms, out2).
Proof.
  fold augment' parse_events'.
  revert out ms. induction pre as [|p pre IH]; intros out ms Hpre Hlen Hstop.
  - injection Hpre as <- <-. change ([] ++ e :: post) with (e :: post).
    rewrite parse_events_cons, Hstop. reflexivity.
  - rewrite parse_events_cons in Hpre.
    change ((p :: pre) ++ e :: post) with (p :: (pre ++ e :: post)).
    rewrite parse_events_cons.
    destruct (augment' args p out) as [[x|m] o1] eqn:Ha.
    + destruct x; try discriminate. injection Hpre as <- _. discriminate.
    + destruct (parse_events' pre args o1) as [[x|ms'] o2] eqn:Hp; [discriminate|].
      injection Hpre as <- <-. simpl in Hlen. injection Hlen as Hlen.
      now rewrite (IH _ _ Hp Hlen Hstop).
Qed.

(** X20: an exception of [parse_events] is an exception [augment] raised on
    one of the events, and it is never [StopIteration]. *)
Theorem parse_events_exception
    (events : list Event) (args : Args) (out out' : output) (x : exn) :
  parse_events fromisoformat is_not_day_only convert_to_zoom_protocol events args out
  = (inl x, out') ->
  x <> StopIteration /\
  exists e o o',
    In e events /\
    augment fromisoformat is_not_day_only convert_to_zoom_protocol args e o = (inl x, o').
Proof.
  fold augment' parse_events'.
  revert out. induction events as [|e es IH]; intros out H; [discriminate|].
  rewrite parse_events_cons in H.
  destruct (augment' args e out) as [[y|m] o1] eqn:Ha.
  - destruct y; try discriminate H; injection H as <- <-;
      (split; [discriminate | exists e, out, o1; split; [now left | exact Ha]]).
  - destruct (parse_events' es args o1) as [[y|ms'] o2] eqn:Hp; [|discriminate].
    injection H as -> ->. destruct (IH _ Hp) as (Hx & e' & o & o' & Hin & He).
    split; [exact Hx|]. exists e', o, o'. split; [now right | exact He].
Qed.

(** X21: every event of a list [parse_events] returns has consistent flags:
    never both in progress and joinable next, and neither on a day event. *)
Theorem parse_events_flags
    (events : list Event) (args : Args) (out out' : output) (ms : list MyEvent) :
  parse_events fromisoformat is_not_day_only convert_to_zoom_protocol events args out
  = (inr ms, out') ->
  Forall flags_consistent ms.
Proof.
  intros H.
  assert (Hone : forall e o m o', augment' args e o = (inr m, o') -> flags_consistent m).
  { intros e o m o' Ha. apply augment_returned in Ha as (_ & Hday & Hjoin).
    unfold flags_consistent.
    destruct (is_not_day_event m), (in_progress m); simpl in *; intuition congruence. }
  destruct (parse_events_Forall2 (fun _ m => flags_consistent m) args Hone _ _ _ _ H)
    as (kept & dropped & _ & Hall).
  clear H. induction Hall; constructor; auto.
Qed.

Lemma augment_appends (args : Args) (event : Event) :
  appends_on (stream_of (format args)) (augment' args event).
Proof. unfold augment', augment. appends. Qed.

Lemma parse_events_appends (events : list Event) (args : Args) :
  appends_on (stream_of (format args))
    (parse_events fromisoformat is_not_day_only convert_to_zoom_protocol events args).
Proof.
  fold parse_events'. induction events as [|e es IH]; [apply appends_on_ret|].
  intros out. rewrite parse_events_cons.
  destruct (augment_appends args e out) as (e1 & E1 & H1).
  destruct (augment' args e out) as [[x|m] o1]; simpl in E1; subst o1.
  - exists e1. destruct x; auto.
  - destruct (IH (out ++ e1)) as (e2 & E2 & H2).
    exists (e1 ++ e2). rewrite app_assoc, <- E2. split; [|apply Forall_app; auto].
    destruct (parse_events' es args (out ++ e1)) as [[x|ms] o2]; reflexivity.
Qed.

(** X22: [parse_events] only adds to the output, and only on the stream of
    the format, whether it returns or raises: in the alfred format no line
    of the normalizer goes to stdout. *)
Theorem parse_events_stream
    (events : list Event) (args : Args) (out out' : output)
    (result : exn + list MyEvent) :
  parse_events fromisoformat is_not_day_only convert_to_zoom_protocol events args out
  = (result, out') ->
  exists extra,
    out' = out ++ extra /\
    Forall (fun line => fst line = stream_of (format args)) extra /\
    (format args = alfred -> Forall (fun line => fst line <> Stdout) extra).
Proof.
  intros H. destruct (parse_events_appends events args out) as (extra & E & Hall).
  rewrite H in E. simpl in E. exists extra. repeat split; auto.
  intros Hfmt. rewrite Hfmt in Hall. simpl in Hall.
  eapply Forall_impl; [exact Hall|]. intros line ->. discriminate.
Qed.

End ParseEvents.

(** ** The list command *)

Section CommandList.

Variable fromisoformat : string -> option datetime.
Variable is_not_day_only : Event -> exn + bool.
Variable convert_to_zoom_protocol : string -> exn + string.
Variable fetch_events : Args -> Py (list Event).
Variable str_datetime : datetime -> string.
Variable dedent : string -> string.
Variable dumps_ScriptFilterOutput : ScriptFilterOutput -> string.
Variable dumps_JsonUtilityFormat : JsonUtilityFormat -> string.

(** The lines [_debug_event_list] writes for a list of events. *)
Let event_lines (ms : list MyEvent) (fmt : OutputFormat) : output :=
  List.map (fun e => (stream_of fmt, dedent (event_string str_datetime e))) ms.

(** [_debug_event_list] never raises and writes one line per event, in
    order. *)
Lemma debug_event_list_run (ms : list MyEvent) (fmt : OutputFormat) (out : output) :
  _debug_event_list str_datetime dedent ms fmt out = (inr tt, out ++ event_lines ms fmt).
Proof.
  revert out. induction ms as [|m ms IH]; intros out.
  - simpl. now rewrite app_nil_r.
  - simpl. unfold mbind, Py_bind, bind. rewrite debug_run, IH.
    now rewrite <- app_assoc.
Qed.

(** The document [command_list] prints in the alfred format for the
    normalized events [ms]. *)
Let document (ms : list MyEvent) (answer : NextMeetingOptions * option MyEvent)
  : JsonUtilityFormat :=
  {| alfredworkflow :=
       {| workflow_arg :=
            dumps_ScriptFilterOutput
              {| items := List.map (to_item str_datetime) (List.filter listed ms) |};
          config := [];
          workflow_variables :=
            [("need_to_prompt", VBool true); ("next_meeting", VStr (value (fst answer)))]
            ++ match snd answer with
               | Some to_join =>
                   [("zoom_link", of_str (zoom_link to_join));
                    ("title", VStr (summary to_join));
                    ("start", of_datetime (start to_join))]
               | None => []
               end |} |}.

(** The run of [command_list] once the events are fetched and normalized. *)
Lemma command_list_run
    (args : Args) (out o1 o2 : output) (events : list Event) (ms : list MyEvent) :
  fetch_events args out = (inr events, o1) ->
  parse_events fromisoformat is_not_day_only convert_to_zoom_protocol events args o1
  = (inr ms, o2) ->
  command_list fromisoformat is_not_day_only convert_to_zoom_protocol fetch_events
    str_datetime dedent dumps_ScriptFilterOutput dumps_JsonUtilityFormat args out
  = match format args with
    | alfred =>
        match find_meeting_to_join (List.filter listed ms) args
                (o2 ++ event_lines ms alfred) with
        | (inr answer, o3) =>
            (inr tt, o3 ++ [(Stdout, dumps_JsonUtilityFormat (document ms answer))])
        | (inl x, o3) => (inl x, o3)
        end
    | stdout =>
        (inr tt, o2 ++ event_lines ms stdout
                 ++ [(Stdout, "TODO: Figure out the non-alfred output format...")])
    end.
Proof.
  intros Hfetch Hparse. unfold command_list.
  unfold mbind, Py_bind, bind. rewrite Hfetch, Hparse, debug_event_list_run.
  destruct (format args).
  - unfold print. now rewrite <- app_assoc.
  - destruct (find_meeting_to_join (List.filter listed ms) args
                (o2 ++ event_lines ms alfred)) as [[x|[answer to_join]] o3];
      [reflexivity|].
    unfold print, document, JsonUtilityFormat_to_json, ScriptFilterOutput_to_json.
    simpl. destruct to_join; reflexivity.
Qed.

(** X23: in the alfred format, whatever [command_list] writes after the
    events are fetched goes to stderr, except for one line: when it returns,
    the last line is the document on stdout; when it raises, nothing has
    gone to stdout. *)
Theorem command_list_alfred_stdout
    (args : Args) (out o1 : output) (fetched : exn + list Event) :
  format args = alfred ->
  fetch_events args out = (fetched, o1) ->
  exists extra,
    Forall (fun line => fst line = Stderr) extra /\
    ((exists x,
         command_list fromisoformat is_not_day_only convert_to_zoom_protocol fetch_events
           str_datetime dedent dumps_ScriptFilterOutput dumps_JsonUtilityFormat args out
         = (inl x, o1 ++ extra))
     \/
     (exists json,
         command_list fromisoformat is_not_day_only convert_to_zoom_protocol fetch_events
           str_datetime dedent dumps_ScriptFilterOutput dumps_JsonUtilityFormat args out
         = (inr tt, o1 ++ extra ++ [(Stdout, json)]))).
Proof.
  intros Hfmt Hfetch. destruct fetched as [x|events].
  - exists []. split; [constructor|]. left. exists x.
    unfold command_list, mbind, Py_bind, bind. rewrite Hfetch, app_nil_r. reflexivity.
  - destruct (parse_events_appends fromisoformat is_not_day_only convert_to_zoom_protocol
                events args o1) as (e1 & E1 & H1).
    rewrite Hfmt in H1. simpl in H1.
    destruct (parse_events fromisoformat is_not_day_only convert_to_zoom_protocol
                events args o1) as [[x|ms] o2] eqn:Hparse; simpl in E1; subst o2.
    + exists e1. split; [exact H1|]. left. exists x.
      unfold command_list, mbind, Py_bind, bind. rewrite Hfetch, Hparse. reflexivity.
    + rewrite (command_list_run _ _ _ _ _ _ Hfetch Hparse), Hfmt.
      rewrite find_meeting_to_join_run. unfold looking_line. rewrite Hfmt.
      exists (e1 ++ event_lines ms alfred
                 ++ [(Stderr, "Looking for next meeting. Have "
                                +:+ pretty (length (List.filter listed ms))
                                +:+ " candidates")]).
      split.
      * apply Forall_app. split; [exact H1|]. apply Forall_app. split.
        -- unfold event_lines. apply Forall_forall. intros line Hin.
           apply list_elem_of_In, in_map_iff in Hin as (e & <- & _). reflexivity.
        -- repeat constructor.
      * right. eexists. rewrite <- !app_assoc. reflexivity.
Qed.

(** X24: in the stdout format [command_list] does not look for a meeting to
    join: after the normalizer it writes one line per normalized event and
    then the line that the format is still to be done, all on stdout. *)
Theorem command_list_stdout_format
    (args : Args) (out o1 o2 : output) (events : list Event) (ms : list MyEvent) :
  format args = stdout ->
  fetch_events args out = (inr events, o1) ->
  parse_events fromisoformat is_not_day_only convert_to_zoom_protocol events args o1
  = (inr ms, o2) ->
  command_list fromisoformat is_not_day_only convert_to_zoom_protocol fetch_events
    str_datetime dedent dumps_ScriptFilterOutput dumps_JsonUtilityFormat args out
  = (inr tt,
     o2 ++ List.map (fun e => (Stdout, dedent (event_string str_datetime e))) ms
        ++ [(Stdout, "TODO: Figure out the non-alfred output format...")]).
Proof.
  intros Hfmt Hfetch Hparse.
  rewrite (command_list_run _ _ _ _ _ _ Hfetch Hparse), Hfmt. reflexivity.
Qed.

(** X25: the document printed in the alfred format lists the normalized
    events that are timed and have a link, each with its link as argument.
    Its variables name a meeting exactly when [find_meeting_to_join] found
    one; that meeting is then one of the listed items and the variable
    "zoom_link" is its link. *)
Theorem command_list_alfred_document
    (args : Args) (out o1 o2 : output) (events : list Event) (ms : list MyEvent) :
  format args = alfred ->
  fetch_events args out = (inr events, o1) ->
  parse_events fromisoformat is_not_day_only convert_to_zoom_protocol events args o1
  = (inr ms, o2) ->
  exists o3 doc its,
    command_list fromisoformat is_not_day_only convert_to_zoom_protocol fetch_events
      str_datetime dedent dumps_ScriptFilterOutput dumps_JsonUtilityFormat args out
    = (inr tt, o3 ++ [(Stdout, dumps_JsonUtilityFormat doc)]) /\
    workflow_arg (alfredworkflow doc) = dumps_ScriptFilterOutput {| items := its |} /\
    config (alfredworkflow doc) = [] /\
    its = List.map (to_item str_datetime) (List.filter listed ms) /\
    Forall (fun it => truthy (arg it) = true) its /\
    match outcome (find_meeting_to_join (List.filter listed ms) args) o2 with
    | inr (FoundNextMeeting, Some m) =>
        In (to_item str_datetime m) its /\
        exists link,
          zoom_link m = Some link /\ link <> "" /\
          workflow_variables (alfredworkflow doc) =
          [("need_to_prompt", VBool true); ("next_meeting", VStr "FoundNextMeeting");
           ("zoom_link", VStr link); ("title", VStr (summary m));
           ("start", of_datetime (start m))]
    | inr (answer, _) =>
        answer <> FoundNextMeeting /\
        workflow_variables (alfredworkflow doc) =
        [("need_to_prompt", VBool true); ("next_meeting", VStr (value answer))]
    | inl _ => False
    end.
Proof.
  intros Hfmt Hfetch Hparse.
  rewrite (command_list_run _ _ _ _ _ _ Hfetch Hparse), Hfmt.
  unfold outcome. rewrite !find_meeting_to_join_run. simpl fst.
  assert (Hlisted : forall e, In e (List.filter listed ms) ->
                              exists link, zoom_link e = Some link /\ link <> "").
  { intros e He. apply List.filter_In in He as [_ He]. unfold listed in He.
    apply andb_true_iff in He as [_ He]. unfold truthy in He.
    destruct (zoom_link e) as [link|]; [|discriminate].
    exists link. split; [reflexivity|]. intros ->. discriminate. }
  remember (List.filter listed ms) as candidates eqn:Hcand.
  set (answer := match candidates with
                 | [] => (NoOptions, None)
                 | _ :: _ =>
                     match List.filter is_next_joinable candidates,
                           List.filter in_progress candidates with
                     | [e], _ => (FoundNextMeeting, Some e)
                     | _, [e] => (FoundNextMeeting, Some e)
                     | _, _ => (MultipleOptions, None)
                     end
                 end).
  exists (o2 ++ event_lines ms alfred ++ [looking_line candidates args]),
         (document ms answer),
         (List.map (to_item str_datetime) candidates).
  split; [now rewrite <- !app_assoc|].
  split; [unfold document; simpl; now rewrite Hcand|].
  split; [reflexivity|]. split; [reflexivity|]. split.
  - apply Forall_forall. intros it Hin.
    apply list_elem_of_In, in_map_iff in Hin as (e & <- & He).
    destruct (Hlisted e He) as (link & Hlink & Hne). simpl. rewrite Hlink.
    simpl. now destruct (String.eqb_spec link "").
  - assert (Hsel : forall e,
               In e (List.filter is_next_joinable candidates) \/
               In e (List.filter in_progress candidates) ->
               In (to_item str_datetime e)
                  (List.map (to_item str_datetime) candidates) /\
               exists link, zoom_link e = Some link /\ link <> "").
    { intros e He.
      assert (Hc : In e candidates)
        by (destruct He as [He|He]; apply List.filter_In in He; tauto).
      split; [now apply in_map | now apply Hlisted]. }
    subst answer. clear Hcand Hlisted. destruct candidates as [|c0 cs].
    + simpl. split; [discriminate | reflexivity].
    + destruct (List.filter is_next_joinable (c0 :: cs)) as [|a [|b l]] eqn:Hn;
        destruct (List.filter in_progress (c0 :: cs)) as [|c [|d l']] eqn:Hr;
        try (simpl; split; [discriminate | reflexivity]).
      all: match goal with
           | |- In (to_item _ ?e) _ /\ _ =>
               destruct (Hsel e) as [Hin (link & Hlink & Hne)];
               [ first [ left; now left | right; now left ] | ];
               split; [exact Hin|]; exists link; repeat split; auto;
               simpl; now rewrite Hlink
           end.
Qed.

(** X26: an event [augment] returns has one of the three icons, so its item
    for Alfred always has an icon. *)
Theorem to_item_has_icon
    (args : Args) (event : Event) (out out' : output) (m : MyEvent) :
  augment fromisoformat is_not_day_only convert_to_zoom_protocol args event out
  = (inr m, out') ->
  exists name,
    In name ["one.png"; "standup.png"; "icon.png"] /\
    icon m = Some name /\
    item_icon (to_item str_datetime m) = Some {| path := name |}.
Proof.
  intros H. apply augment_inversion in H
    as (sd & ed & link & _ & _ & _ & _ & _ & _ & _ & _ & _ & _ & Hicon).
  unfold to_item. rewrite Hicon. simpl.
  destruct (contains "1:1" (summary m)); [|destruct (contains "Standup" (summary m))];
    eexists; (split; [|split; reflexivity]); simpl; auto.
Qed.

End CommandList.

(** ** The further properties at concrete events *)

Lemma find_meeting_to_join_answer_shape_witness :
  (FoundNextMeeting = FoundNextMeeting <-> Some m_standup <> None) /\
  (FoundNextMeeting = NoOptions <-> [m_weekly; m_standup] = []).
Proof.
  apply (find_meeting_to_join_answer_shape [m_weekly; m_standup] at_0958 []).
  vm_compute. reflexivity.
Defined.

Lemma find_meeting_to_join_nothing_flagged_witness :
  outcome (find_meeting_to_join [m_standup_early] at_0930) []
  = inr (MultipleOptions, None).
Proof.
  apply (find_meeting_to_join_nothing_flagged [m_standup_early] at_0930 []).
  - discriminate.
  - intros e [<-|[]]. split; reflexivity.
Defined.

Lemma find_meeting_to_join_order_irrelevant_witness :
  find_meeting_to_join [m_weekly; m_standup] at_0958 []
  = find_meeting_to_join [m_standup; m_weekly] at_0958 [].
Proof.
  apply (find_meeting_to_join_order_irrelevant
           [m_weekly; m_standup] [m_standup; m_weekly] at_0958 []).
  apply perm_swap.
Defined.

Lemma get_zoom_link_found_has_marker_witness :
  contains zoom_us "https://acme.zoom.us/j/700" = true /\ @nil (stream * string) = [].
Proof.
  apply (get_zoom_link_found_has_marker hybrid at_0958 [] [] "https://acme.zoom.us/j/700").
  vm_compute. reflexivity.
Defined.

Lemma get_zoom_link_no_conference_data_witness :
  get_zoom_link holiday at_0958 []
  = (inr None, [] ++ [(stream_of (format at_0958), "No conference data found for " +:+ "Holiday")]).
Proof.
  apply (get_zoom_link_no_conference_data holiday at_0958 [] "Holiday"); reflexivity.
Defined.

Lemma get_zoom_link_untitled_witness :
  get_zoom_link untitled at_0958 [] = (inl (KeyError "summary"), []).
Proof. apply (get_zoom_link_untitled untitled at_0958 []); reflexivity. Defined.

Lemma get_zoom_link_first_entry_witness :
  get_zoom_link hybrid at_0958 [] = (inr (Some "https://acme.zoom.us/j/700"), []).
Proof.
  apply (get_zoom_link_first_entry hybrid at_0958 [] [meet_entry] [] zoom_entry).
  - reflexivity.
  - reflexivity.
  - intros e [<-|[]]. vm_compute. reflexivity.
  - vm_compute. reflexivity.
  - reflexivity.
Defined.

Lemma get_zoom_link_none_only_without_entries_witness :
  contains zoom_us (default "" (ev_location holiday)) = false /\
  entry_points holiday = [] /\
  exists title,
    ev_summary holiday = Some title /\
    [(Stderr, "No conference data found for Holiday")]
    = [] ++ [(stream_of (format at_0958), "No conference data found for " +:+ title)].
Proof.
  apply (get_zoom_link_none_only_without_entries holiday at_0958 []
           [(Stderr, "No conference data found for Holiday")]).
  vm_compute. reflexivity.
Defined.

Lemma has_zoom_link_iff_witness :
  true = true <->
  contains zoom_us (default "" (ev_location hybrid)) = true \/
  exists ep : dict, In ep (entry_points hybrid) /\
                    contains zoom_us (default "" (ep !! "uri")) = true.
Proof.
  apply (has_zoom_link_iff hybrid at_0958 [] [] true).
  vm_compute. reflexivity.
Defined.

Lemma augment_joinable_window_witness :
  is_next_joinable m_standup = true <->
  is_not_day_event m_standup = true /\
  exists s x y, start m_standup = Some s /\ aligned s (now at_0958) = inr (x, y) /\
                y < x < y + 180000000.
Proof.
  apply (augment_joinable_window
           Model.fromisoformat Model.is_not_day_only Model.convert_to_zoom_protocol
           at_0958 standup [] [] m_standup).
  vm_compute. reflexivity.
Defined.

Lemma augment_in_progress_iff_witness :
  in_progress m_weekly = true <->
  is_not_day_event m_weekly = true /\
  exists ed s e x y x' y',
    ev_end weekly = Some ed /\ start m_weekly = Some s /\
    parse_event_datetime Model.fromisoformat ed = Some e /\
    aligned s (now at_0958) = inr (x, y) /\ aligned e (now at_0958) = inr (x', y') /\
    x <= y /\ y' <= x'.
Proof.
  apply (augment_in_progress_iff
           Model.fromisoformat Model.is_not_day_only Model.convert_to_zoom_protocol
           at_0958 weekly [] [] m_weekly).
  vm_compute. reflexivity.
Defined.

Lemma augment_link_converted_witness :
  exists link,
    get_zoom_link hybrid at_0958 [] = (inr link, []) /\
    match link, zoom_link m_hybrid with
    | Some l, Some z => Model.convert_to_zoom_protocol l = inr z
    | None, None => True
    | _, _ => False
    end.
Proof.
  apply (augment_link_converted
           Model.fromisoformat Model.is_not_day_only Model.convert_to_zoom_protocol
           at_0958 hybrid [] [] m_hybrid).
  vm_compute. reflexivity.
Defined.

Lemma augment_mixed_awareness_witness :
  Model.augment naive_0958 weekly [] = (inl TypeError, []).
Proof.
  apply (augment_mixed_awareness
           Model.fromisoformat Model.is_not_day_only Model.convert_to_zoom_protocol
           naive_0958 weekly [] "a"
           {[ "dateTime" := "2024-01-01T09:00:00+00:00" ]}
           {[ "dateTime" := "2024-01-01T10:00:00+00:00" ]}
           (moment "2024-01-01T09:00:00+00:00")).
  - reflexivity.
  - reflexivity.
  - reflexivity.
  - vm_compute. reflexivity.
  - vm_compute. reflexivity.
  - split; intros _; [reflexivity | exists 0; reflexivity].
Defined.

Lemma augment_missing_key_witness :
  Model.augment at_0958 endless [] = (inl (KeyError "end"), []).
Proof.
  apply (augment_missing_key
           Model.fromisoformat Model.is_not_day_only Model.convert_to_zoom_protocol
           at_0958 endless []).
  right. right. reflexivity.
Defined.

Lemma augment_requires_keys_witness :
  ev_id standup = Some (event_id m_standup) /\
  ev_summary standup = Some (summary m_standup) /\
  is_Some (ev_end standup) /\
  Model.is_not_day_only standup = inr (is_not_day_event m_standup) /\
  exists sd, ev_start standup = Some sd /\
             start m_standup = parse_event_datetime Model.fromisoformat sd.
Proof.
  apply (augment_requires_keys
           Model.fromisoformat Model.is_not_day_only Model.convert_to_zoom_protocol
           at_0958 standup [] [] m_standup).
  vm_compute. reflexivity.
Defined.

Lemma parse_event_datetime_other_keys_witness :
  parse_event_datetime Model.fromisoformat
    (<["timeZone" := "America/New_York"]> {[ "dateTime" := "2024-01-01T09:00:00-05:00" ]})
  = parse_event_datetime Model.fromisoformat {[ "dateTime" := "2024-01-01T09:00:00-05:00" ]}.
Proof.
  apply (parse_event_datetime_other_keys Model.fromisoformat
           {[ "dateTime" := "2024-01-01T09:00:00-05:00" ]}
           "timeZone" "America/New_York"); discriminate.
Defined.

Lemma parse_events_prefix_witness :
  exists kept dropped,
    [weekly; design_review; standup] = kept ++ dropped /\
    Forall2 (fun e m => exists o o', Model.augment at_0958 e o = (inr m, o'))
            kept [m_weekly] /\
    (length [m_weekly] <= length [weekly; design_review; standup])%nat.
Proof.
  apply (parse_events_prefix
           Model.fromisoformat Model.is_not_day_only Model.convert_to_zoom_protocol
           [weekly; design_review; standup] at_0958 [] [] [m_weekly]).
  vm_compute. reflexivity.
Defined.

Lemma parse_events_truncates_witness :
  Model.parse_events ([weekly] ++ design_review :: [standup]) at_0958 []
  = (inr [m_weekly], []).
Proof.
  apply (parse_events_truncates
           Model.fromisoformat Model.is_not_day_only Model.convert_to_zoom_protocol
           [weekly] [standup] design_review at_0958 [] [] [] [m_weekly]).
  - vm_compute. reflexivity.
  - reflexivity.
  - vm_compute. reflexivity.
Defined.

Lemma parse_events_exception_witness :
  TypeError <> StopIteration /\
  exists e o o',
    In e [weekly; garbled; standup] /\ Model.augment at_0958 e o = (inl TypeError, o').
Proof.
  apply (parse_events_exception
           Model.fromisoformat Model.is_not_day_only Model.convert_to_zoom_protocol
           [weekly; garbled; standup] at_0958 [] []).
  vm_compute. reflexivity.
Defined.

Lemma parse_events_flags_witness :
  Forall flags_consistent [m_weekly; m_standup; m_one_on_one; m_planning].
Proof.
  apply (parse_events_flags
           Model.fromisoformat Model.is_not_day_only Model.convert_to_zoom_protocol
           [weekly; standup; one_on_one; planning] at_0958 [] []).
  vm_compute. reflexivity.
Defined.

Lemma command_list_alfred_stdout_witness :
  exists extra,
    Forall (fun line => fst line = Stderr) extra /\
    ((exists x,
         Plain.command_list [weekly; standup; holiday] at_0958 [] = (inl x, [] ++ extra))
     \/
     (exists json,
         Plain.command_list [weekly; standup; holiday] at_0958 []
         = (inr tt, [] ++ extra ++ [(Stdout, json)]))).
Proof.
  apply (command_list_alfred_stdout
           Model.fromisoformat Model.is_not_day_only Model.convert_to_zoom_protocol
           (Plain.fetch_events [weekly; standup; holiday])
           Plain.str_datetime Plain.dedent
           Plain.dumps_ScriptFilterOutput Plain.dumps_JsonUtilityFormat
           at_0958 [] [] (inr [weekly; standup; holiday])).
  - reflexivity.
  - reflexivity.
Defined.

Lemma command_list_stdout_format_witness :
  Plain.command_list [weekly; holiday] plain_0958 []
  = (inr tt,
     [(Stdout, "No conference data found for Holiday")]
     ++ List.map (fun e => (Stdout, Plain.dedent (event_string Plain.str_datetime e)))
          [m_weekly; m_holiday]
     ++ [(Stdout, "TODO: Figure out the non-alfred output format...")]).
Proof.
  apply (command_list_stdout_format
           Model.fromisoformat Model.is_not_day_only Model.convert_to_zoom_protocol
           (Plain.fetch_events [weekly; holiday])
           Plain.str_datetime Plain.dedent
           Plain.dumps_ScriptFilterOutput Plain.dumps_JsonUtilityFormat
           plain_0958 [] [] [(Stdout, "No conference data found for Holiday")]
           [weekly; holiday] [m_weekly; m_holiday]).
  - reflexivity.
  - reflexivity.
  - vm_compute. reflexivity.
Defined.

Lemma command_list_alfred_document_witness :
  exists o3 doc its,
    Plain.command_list [weekly; standup; holiday] at_0958 []
    = (inr tt, o3 ++ [(Stdout, Plain.dumps_JsonUtilityFormat doc)]) /\
    workflow_arg (alfredworkflow doc) = Plain.dumps_ScriptFilterOutput {| items := its |} /\
    config (alfredworkflow doc) = [] /\
    its = List.map (to_item Plain.str_datetime)
                   (List.filter listed [m_weekly; m_standup; m_holiday]) /\
    Forall (fun it => truthy (arg it) = true) its /\
    match outcome (find_meeting_to_join
                     (List.filter listed [m_weekly; m_standup; m_holiday]) at_0958)
                  [(Stderr, "No conference data found for Holiday")] with
    | inr (FoundNextMeeting, Some m) =>
        In (to_item Plain.str_datetime m) its /\
        exists link,
          zoom_link m = Some link /\ link <> "" /\
          workflow_variables (alfredworkflow doc) =
          [("need_to_prompt", VBool true); ("next_meeting", VStr "FoundNextMeeting");
           ("zoom_link", VStr link); ("title", VStr (summary m));
           ("start", of_datetime (start m))]
    | inr (answer, _) =>
        answer <> FoundNextMeeting /\
        workflow_variables (alfredworkflow doc) =
        [("need_to_prompt", VBool true); ("next_meeting", VStr (value answer))]
    | inl _ => False
    end.
Proof.
  apply (command_list_alfred_document
           Model.fromisoformat Model.is_not_day_only Model.convert_to_zoom_protocol
           (Plain.fetch_events [weekly; standup; holiday])
           Plain.str_datetime Plain.dedent
           Plain.dumps_ScriptFilterOutput Plain.dumps_JsonUtilityFormat
           at_0958 [] [] [(Stderr, "No conference data found for Holiday")]
           [weekly; standup; holiday] [m_weekly; m_standup; m_holiday]).
  - reflexivity.
  - reflexivity.
  - vm_compute. reflexivity.
Defined.

Lemma to_item_has_icon_witness :
  exists name,
    In name ["one.png"; "standup.png"; "icon.png"] /\
    icon m_standup = Some name /\
    item_icon (to_item Plain.str_datetime m_standup) = Some {| path := name |}.
Proof.
  apply (to_item_has_icon
           Model.fromisoformat Model.is_not_day_only Model.convert_to_zoom_protocol
           Plain.str_datetime at_0958 standup [] [] m_standup).
  vm_compute. reflexivity.
Defined.

Lemma parse_events_stream_witness :
  exists extra,
    [(Stderr, "No conference data found for Holiday")] = [] ++ extra /\
    Forall (fun line => fst line = stream_of (format at_0958)) extra /\
    (format at_0958 = alfred -> Forall (fun line => fst line <> Stdout) extra).
Proof.
  apply (parse_events_stream
           Model.fromisoformat Model.is_not_day_only Model.convert_to_zoom_protocol
           [weekly; holiday] at_0958 []
           [(Stderr, "No conference data found for Holiday")]
           (inr [m_weekly; m_holiday])).
  vm_compute. reflexivity.
Defined.
